(** * SunoMIDI: the job-lifecycle client (upload, generate, poll, download)

    A shallow embedding of the class [SunoMIDIUploader] and a verification of
    its error handling, request construction and polling loop.

    The client talks to three collaborators: the local file system, an HTTP
    service and the wall clock.  They are gathered in a [world] that every
    method threads through; a Python exception is an [outcome] next to the
    world reached when it was raised. *)

From Stdlib Require Import ZArith Ascii String List Lia.
From stdpp Require Import base strings gmap list pretty.
Import ListNotations.

Local Open Scope string_scope.
Set Warnings "-register-all,-abstract-large-number".

(** ** Host-language values *)

(** Values that JSON decoding produces and that the client passes around.
    Numbers are integers; a [str] is a sequence of characters with codes
    below 256. *)
Inductive value : Type :=
| PyNone
| PyBool (b : bool)
| PyInt (z : Z)
| PyStr (s : string)
| PyList (l : list value)
| PyDict (d : list (string * value)).

(** Truth-value testing, as [if x:] performs it. *)
Class Truthy (A : Type) := truthy : A -> bool.

#[global] Instance truthy_string : Truthy string :=
  fun s => negb (String.eqb s "").
#[global] Instance truthy_list {A} : Truthy (list A) :=
  fun l => match l with [] => false | _ :: _ => true end.
#[global] Instance truthy_option {A} `{Truthy A} : Truthy (option A) :=
  fun o => match o with None => false | Some a => truthy a end.
#[global] Instance truthy_value : Truthy value :=
  fun v =>
    match v with
    | PyNone => false
    | PyBool b => b
    | PyInt z => negb (Z.eqb z 0)
    | PyStr s => truthy s
    | PyList l => truthy l
    | PyDict d => truthy d
    end.

(** A [dict] keeps its keys in insertion order. *)
Fixpoint dict_get (d : list (string * value)) (k : string) : value :=
  match d with
  | [] => PyNone
  | (k', v) :: d' => if String.eqb k' k then v else dict_get d' k
  end.

Fixpoint dict_set (d : list (string * value)) (k : string) (v : value)
  : list (string * value) :=
  match d with
  | [] => [(k, v)]
  | (k', v') :: d' =>
      if String.eqb k' k then (k', v) :: d' else (k', v') :: dict_set d' k v
  end.

Definition dict_keys (d : list (string * value)) : list string := map fst d.

(** [v == s] for a string literal [s]: only an equal [str] compares equal. *)
Definition eq_str (v : value) (s : string) : bool :=
  match v with
  | PyStr t => String.eqb t s
  | _ => false
  end.

(** ** Strings *)

Definition dquote : string := String "034"%char "".
Definition backslash : string := String "092"%char "".

Definition lower_char (c : ascii) : ascii :=
  let n := nat_of_ascii c in
  if (65 <=? n)%nat && (n <=? 90)%nat then ascii_of_nat (n + 32) else c.

(** [str.lower], on the ASCII letters. *)
Fixpoint lower (s : string) : string :=
  match s with
  | EmptyString => EmptyString
  | String c r => String (lower_char c) (lower r)
  end.

(** [s.split(sep)] for a one-character separator. *)
Fixpoint split_on (sep : ascii) (s : string) : list string :=
  match s with
  | EmptyString => [EmptyString]
  | String c r =>
      if Ascii.eqb c sep then EmptyString :: split_on sep r
      else match split_on sep r with
           | [] => [String c EmptyString]
           | x :: xs => String c x :: xs
           end
  end.

(** [s.rfind(c)]; [None] stands for the result -1. *)
Fixpoint rfind (c : ascii) (s : string) : option nat :=
  match s with
  | EmptyString => None
  | String a r =>
      match rfind c r with
      | Some i => Some (S i)
      | None => if Ascii.eqb a c then Some 0%nat else None
      end
  end.

(** [s[i:]] *)
Fixpoint drop_str (i : nat) (s : string) : string :=
  match i, s with
  | O, _ => s
  | S _, EmptyString => EmptyString
  | S i', String _ r => drop_str i' r
  end.

Definition hex_digit (n : nat) : ascii :=
  if (n <? 10)%nat then ascii_of_nat (48 + n) else ascii_of_nat (87 + n).

(** ** [json.dumps] with its default arguments *)

(** One character of a JSON string literal under [ensure_ascii]: the
    printable ASCII characters stand for themselves except the quote and
    the backslash; the rest are escaped. *)
Definition json_escape_char (c : ascii) : string :=
  let n := nat_of_ascii c in
  if (n =? 34)%nat then backslash +:+ dquote
  else if (n =? 92)%nat then backslash +:+ backslash
  else if (n =? 10)%nat then backslash +:+ "n"
  else if (n =? 13)%nat then backslash +:+ "r"
  else if (n =? 9)%nat then backslash +:+ "t"
  else if (n =? 12)%nat then backslash +:+ "f"
  else if (n =? 8)%nat then backslash +:+ "b"
  else if (32 <=? n)%nat && (n <=? 126)%nat then String c ""
  else backslash +:+ "u00"
       +:+ String (hex_digit (n / 16)) (String (hex_digit (n mod 16)) "").

Fixpoint json_escape (s : string) : string :=
  match s with
  | EmptyString => EmptyString
  | String c r => json_escape_char c +:+ json_escape r
  end.

Definition json_quote (s : string) : string :=
  dquote +:+ json_escape s +:+ dquote.

Fixpoint json_dumps (v : value) : string :=
  match v with
  | PyNone => "null"
  | PyBool true => "true"
  | PyBool false => "false"
  | PyInt z => pretty z
  | PyStr s => json_quote s
  | PyList l => "[" +:+ String.concat ", " (map json_dumps l) +:+ "]"
  | PyDict d =>
      "{" +:+ String.concat ", "
                (map (fun kv => json_quote (fst kv) +:+ ": "
                                +:+ json_dumps (snd kv)) d)
      +:+ "}"
  end.

(** ** [pathlib.Path], POSIX flavour *)

(** The components of a path: empty ones and ["."] are dropped. *)
Definition path_parts (p : string) : list string :=
  List.filter (fun c => negb (String.eqb c "") && negb (String.eqb c "."))
              (split_on "/" p).

(** [Path(p).name]: the final component, if any. *)
Definition path_name (p : string) : string := List.last (path_parts p) "".

(** [Path(p).suffix]: the final component from its last dot on, when that
    dot is neither its first nor its last character. *)
Definition path_suffix (p : string) : string :=
  let name := path_name p in
  match rfind "." name with
  | Some i =>
      if (0 <? i)%nat && (i <? String.length name - 1)%nat
      then drop_str i name else ""
  | None => ""
  end.

(** ** The world: file system, clock and HTTP service *)

Inductive node : Type :=
| File (content : string)
| Directory.

Inductive http_method : Type := GET | POST.

(** One entry of the [files=] argument: file name, content, MIME type. *)
Record file_part : Type :=
  { part_filename : string; part_content : string; part_type : string }.

Inductive payload : Type :=
| NoBody
| Multipart (files : list (string * file_part)) (data : list (string * value))
| JsonBody (body : value).

Record request : Type :=
  { req_method : http_method;
    req_url : string;
    req_headers : list (string * string);
    req_payload : payload;
    req_stream : bool }.

(** A response as the client sees it: [json] is what [response.json()]
    decodes from the body, [None] when the body is not JSON; [elapsed] is
    the time the exchange took. *)
Record response : Type :=
  { status_code : Z;
    text : string;
    json : option value;
    elapsed : N }.

(** The service answers the [n]-th request of a run with [server n]; the
    requests issued so far are logged in [sent], oldest first. *)
Record world : Type :=
  { fs : gmap string node;
    now : Z;
    sent : list request;
    server : nat -> response }.

Definition set_fs (f : gmap string node) (w : world) : world :=
  {| fs := f; now := now w; sent := sent w; server := server w |}.

Definition advance (d : Z) (w : world) : world :=
  {| fs := fs w; now := (now w + d)%Z; sent := sent w; server := server w |}.

Definition log (r : request) (w : world) : world :=
  {| fs := fs w; now := now w; sent := sent w ++ [r]; server := server w |}.

(** ** Exceptions and the effect monad *)

Inductive exn : Type :=
| FileNotFoundError (msg : string)
| IsADirectoryError (msg : string)
| ValueError (msg : string)
| AttributeError (msg : string)
| JSONDecodeError
| TimeoutError (msg : string)
| Exception_ (msg : string).

Inductive outcome (A : Type) : Type :=
| Return (a : A)
| Raise (e : exn).
Arguments Return {A} a.
Arguments Raise {A} e.

Definition M (A : Type) : Type := world -> outcome A * world.

Definition ret {A} (a : A) : M A := fun w => (Return a, w).
Definition raise {A} (e : exn) : M A := fun w => (Raise e, w).
Definition bind {A B} (m : M A) (k : A -> M B) : M B :=
  fun w =>
    match m w with
    | (Return a, w') => k a w'
    | (Raise e, w') => (Raise e, w')
    end.

Declare Scope py_scope.
Delimit Scope py_scope with py.
Notation "x <- m ;; k" := (bind m (fun x => k))
  (at level 100, m at next level, right associativity) : py_scope.
Notation "m ;;; k" := (bind m (fun _ => k))
  (at level 100, right associativity) : py_scope.
Local Open Scope py_scope.

(** A computation that may not return: [None] when the fuel runs out. *)
Definition D (A : Type) : Type := world -> option (outcome A * world).

Definition lift {A} (m : M A) : D A := fun w => Some (m w).
Definition bindD {A B} (m : D A) (k : A -> D B) : D B :=
  fun w =>
    match m w with
    | None => None
    | Some (Return a, w') => k a w'
    | Some (Raise e, w') => Some (Raise e, w')
    end.
Notation "x <-- m ;; k" := (bindD m (fun x => k))
  (at level 100, m at next level, right associativity) : py_scope.

(** [while cond: body], where the body either leaves the function with a
    value ([Some a], a [return a] inside the loop) or falls through to the
    next test of the condition.  The loop itself yields [None] when the
    condition turns false. *)
Fixpoint while {A} (fuel : nat) (cond : M bool) (body : M (option A))
  (w : world) : option (outcome (option A) * world) :=
  match fuel with
  | O => None
  | S fuel' =>
      match cond w with
      | (Raise e, w1) => Some (Raise e, w1)
      | (Return false, w1) => Some (Return None, w1)
      | (Return true, w1) =>
          match body w1 with
          | (Raise e, w2) => Some (Raise e, w2)
          | (Return (Some a), w2) => Some (Return (Some a), w2)
          | (Return None, w2) => while fuel' cond body w2
          end
      end
  end.

(** [for x in xs: body x] *)
Fixpoint for_each {A} (xs : list A) (body : A -> M unit) : M unit :=
  match xs with
  | [] => ret tt
  | x :: xs' => body x ;;; for_each xs' body
  end.

(** *** File system *)

Definition path_exists (p : string) : M bool :=
  fun w => (Return (bool_decide (is_Some (fs w !! p))), w).

(** [open(p, 'rb').read()] *)
Definition read_file (p : string) : M string :=
  fun w =>
    match fs w !! p with
    | Some (File c) => (Return c, w)
    | Some Directory => (Raise (IsADirectoryError p), w)
    | None => (Raise (FileNotFoundError p), w)
    end.

(** [open(p, 'wb')]: the file is created, or emptied when it exists. *)
Definition open_wb (p : string) : M string :=
  fun w =>
    match fs w !! p with
    | Some Directory => (Raise (IsADirectoryError p), w)
    | _ => (Return p, set_fs (<[p := File ""]> (fs w)) w)
    end.

(** [f.write(chunk)] on a file opened by [open_wb]. *)
Definition file_write (f : string) (chunk : string) : M unit :=
  fun w =>
    match fs w !! f with
    | Some (File c) => (Return tt, set_fs (<[f := File (c +:+ chunk)]> (fs w)) w)
    | _ => (Raise (ValueError "I/O operation on closed file"), w)
    end.

(** *** Clock *)

Definition time_time : M Z := fun w => (Return (now w), w).

Definition time_sleep (secs : Z) : M unit :=
  fun w =>
    if (secs <? 0)%Z
    then (Raise (ValueError "sleep length must be non-negative"), w)
    else (Return tt, advance secs w).

(** *** HTTP *)

(** One request/response exchange: the request is logged, the service's
    next answer is returned and the clock moves by the time it took. *)
Definition http_send (r : request) : M response :=
  fun w =>
    let resp := server w (length (sent w)) in
    (Return resp, advance (Z.of_N (elapsed resp)) (log r w)).

Definition requests_post (url : string) (headers : list (string * string))
  (body : payload) : M response :=
  http_send {| req_method := POST; req_url := url; req_headers := headers;
               req_payload := body; req_stream := false |}.

Definition requests_get (url : string) (headers : list (string * string))
  (stream : bool) : M response :=
  http_send {| req_method := GET; req_url := url; req_headers := headers;
               req_payload := NoBody; req_stream := stream |}.

(** [response.json()] *)
Definition response_json (r : response) : M value :=
  match json r with
  | Some v => ret v
  | None => raise JSONDecodeError
  end.

(** [response.iter_content(chunk_size=n)]: the body cut into pieces of [n]
    characters, the last one possibly shorter. *)
Fixpoint chunks_go (fuel n : nat) (s : string) : list string :=
  match fuel with
  | O => []
  | S fuel' =>
      match s with
      | EmptyString => []
      | _ => substring 0 n s :: chunks_go fuel' n (drop_str n s)
      end
  end.

Definition iter_content (r : response) (chunk_size : nat) : list string :=
  chunks_go (String.length (text r)) chunk_size (text r).

(** [v.get(k)]: defined on a [dict] only. *)
Definition py_get (v : value) (k : string) : M value :=
  match v with
  | PyDict d => ret (dict_get d k)
  | _ => raise (AttributeError "get")
  end.

Definition opt_str (o : option string) : value :=
  match o with Some s => PyStr s | None => PyNone end.

Definition opt_list (o : option (list value)) : value :=
  match o with Some l => PyList l | None => PyNone end.

Definition is_in (s : string) (l : list string) : bool :=
  existsb (String.eqb s) l.

(** ** The client *)

Record SunoMIDIUploader : Type :=
  { api_key : string;
    base_url : string;
    headers : list (string * string) }.

Definition default_base_url : string := "https://api.suno.ai/v1".

(** [__init__] *)
Definition init (api_key base_url : string) : SunoMIDIUploader :=
  {| api_key := api_key;
     base_url := base_url;
     headers := [("Authorization", "Bearer " +:+ api_key);
                 ("Content-Type", "application/json")] |}.

(** The form that [upload_midi] builds from its optional arguments. *)
Definition upload_form (title style : option string)
  (tags : option (list value)) : list (string * value) :=
  let data := [] in
  let data := if truthy title then dict_set data "title" (opt_str title)
              else data in
  let data := if truthy style then dict_set data "style" (opt_str style)
              else data in
  let data := if truthy tags
              then dict_set data "tags" (PyStr (json_dumps (opt_list tags)))
              else data in
  data.

Definition upload_request (self : SunoMIDIUploader) (midi_path midi_data : string)
  (title style : option string) (tags : option (list value)) : request :=
  {| req_method := POST;
     req_url := base_url self +:+ "/uploads/midi";
     req_headers := [("Authorization", "Bearer " +:+ api_key self)];
     req_payload :=
       Multipart [("midi_file", {| part_filename := path_name midi_path;
                                   part_content := midi_data;
                                   part_type := "audio/midi" |})]
                 (upload_form title style tags);
     req_stream := false |}.

Definition upload_midi (self : SunoMIDIUploader) (midi_path : string)
  (title style : option string) (tags : option (list value)) : M value :=
  let midi_file := midi_path in
  found <- path_exists midi_file ;;
  if negb found
  then raise (FileNotFoundError ("MIDI file not found: " +:+ midi_path))
  else
  if negb (is_in (lower (path_suffix midi_file)) [".mid"; ".midi"])
  then raise (ValueError "File must be a MIDI file (.mid or .midi)")
  else
  midi_data <- read_file midi_file ;;
  let files := [("midi_file", {| part_filename := path_name midi_file;
                                 part_content := midi_data;
                                 part_type := "audio/midi" |})] in
  let data := upload_form title style tags in
  let upload_url := base_url self +:+ "/uploads/midi" in
  let upload_headers := [("Authorization", "Bearer " +:+ api_key self)] in
  response <- requests_post upload_url upload_headers (Multipart files data) ;;
  if negb (status_code response =? 200)%Z
  then raise (Exception_ ("Upload failed: " +:+ pretty (status_code response)
                          +:+ " - " +:+ text response))
  else response_json response.

Definition default_style : string := "pop".
Definition default_duration : Z := 180.

(** The JSON body that [generate_from_midi] posts. *)
Definition generate_payload (midi_id : value) (prompt : option string)
  (style : string) (duration : Z) : list (string * value) :=
  let payload := [("midi_id", midi_id);
                  ("style", PyStr style);
                  ("duration", PyInt duration)] in
  if truthy prompt then dict_set payload "prompt" (opt_str prompt) else payload.

Definition generate_request (self : SunoMIDIUploader) (midi_id : value)
  (prompt : option string) (style : string) (duration : Z) : request :=
  {| req_method := POST;
     req_url := base_url self +:+ "/generate";
     req_headers := headers self;
     req_payload := JsonBody (PyDict (generate_payload midi_id prompt style duration));
     req_stream := false |}.

Definition generate_from_midi (self : SunoMIDIUploader) (midi_path : string)
  (prompt : option string) (style : string) (duration : Z) : M value :=
  upload_result <- upload_midi self midi_path None None None ;;
  midi_id <- py_get upload_result "midi_id" ;;
  let generate_url := base_url self +:+ "/generate" in
  let payload := generate_payload midi_id prompt style duration in
  response <- requests_post generate_url (headers self) (JsonBody (PyDict payload)) ;;
  if negb (status_code response =? 200)%Z
  then raise (Exception_ ("Generation failed: " +:+ pretty (status_code response)
                          +:+ " - " +:+ text response))
  else response_json response.

Definition status_request (self : SunoMIDIUploader) (job_id : string) : request :=
  {| req_method := GET;
     req_url := base_url self +:+ "/generations/" +:+ job_id;
     req_headers := headers self;
     req_payload := NoBody;
     req_stream := false |}.

Definition get_generation_status (self : SunoMIDIUploader) (job_id : string)
  : M value :=
  let status_url := base_url self +:+ "/generations/" +:+ job_id in
  response <- requests_get status_url (headers self) false ;;
  if negb (status_code response =? 200)%Z
  then raise (Exception_ ("Status check failed: " +:+ pretty (status_code response)
                          +:+ " - " +:+ text response))
  else response_json response.

Definition download_request (result_url : string) : request :=
  {| req_method := GET;
     req_url := result_url;
     req_headers := [];
     req_payload := NoBody;
     req_stream := true |}.

Definition download_result (self : SunoMIDIUploader)
  (result_url output_path : string) : M unit :=
  response <- requests_get result_url [] true ;;
  if negb (status_code response =? 200)%Z
  then raise (Exception_ ("Download failed: " +:+ pretty (status_code response)))
  else
  f <- open_wb output_path ;;
  for_each (iter_content response 8192) (fun chunk => file_write f chunk).

Definition default_timeout : Z := 300.
Definition default_poll_interval : Z := 5.

Section Formatting.

(** [repr] of a list or a dict is left to the host language. *)
Variable repr : value -> string.

(** [str(v)], as an f-string field formats [v]. *)
Definition py_str (v : value) : string :=
  match v with
  | PyNone => "None"
  | PyBool true => "True"
  | PyBool false => "False"
  | PyInt z => pretty z
  | PyStr s => s
  | PyList _ | PyDict _ => repr v
  end.

(** The fields that the HTTP library puts on the wire for one entry of
    [data=]: a string is one field, a list one field per element. *)
Definition field_values (v : value) : list string :=
  match v with
  | PyNone => []
  | PyStr s => [s]
  | PyList l =>
      map py_str
          (List.filter (fun x => match x with PyNone => false | _ => true end) l)
  | PyDict d => dict_keys d
  | _ => [py_str v]
  end.

Definition form_fields (data : list (string * value)) : list (string * string) :=
  flat_map (fun kv => map (pair (fst kv)) (field_values (snd kv))) data.

(** One turn of the polling loop of [wait_for_completion]. *)
Definition poll_once (self : SunoMIDIUploader) (job_id : string)
  (poll_interval : Z) : M (option value) :=
  status <- get_generation_status self job_id ;;
  st <- py_get status "status" ;;
  if eq_str st "completed" then ret (Some status)
  else
    st' <- py_get status "status" ;;
    if eq_str st' "failed"
    then err <- py_get status "error" ;;
         raise (Exception_ ("Generation failed: " +:+ py_str err))
    else time_sleep poll_interval ;;; ret None.

(** The [while] loop of [wait_for_completion], started at [start_time]. *)
Definition polling_loop (fuel : nat) (self : SunoMIDIUploader)
  (job_id : string) (start_time timeout poll_interval : Z)
  : D (option value) :=
  while fuel
    (t <- time_time ;; ret (t - start_time <? timeout)%Z)
    (poll_once self job_id poll_interval).

Definition wait_for_completion (fuel : nat) (self : SunoMIDIUploader)
  (job_id : string) (timeout poll_interval : Z) : D value :=
  start_time <-- lift time_time ;;
  finished <-- polling_loop fuel self job_id start_time timeout poll_interval ;;
  match finished with
  | Some status => lift (ret status)
  | None =>
      lift (raise (TimeoutError ("Generation did not complete within "
                                 +:+ pretty timeout +:+ " seconds")))
  end.

End Formatting.

(** ** Vocabulary of the properties *)

(** The answer the service gives to the next request, and the world after
    that one exchange. *)
Definition answer (w : world) : response := server w (length (sent w)).

Definition exchanged (req : request) (w : world) : world :=
  advance (Z.of_N (elapsed (answer w))) (log req w).

(** The content of [p] when [upload_midi] accepts it: a regular file whose
    suffix is that of a MIDI file. *)
Definition uploadable (p : string) (w : world) : option string :=
  match fs w !! p with
  | Some (File c) =>
      if is_in (lower (path_suffix p)) [".mid"; ".midi"] then Some c else None
  | _ => None
  end.

(** The four operations that talk to the service. *)
Inductive operation : Type :=
| Upload (midi_path : string) (title style : option string)
         (tags : option (list value))
| Generate (midi_path : string) (prompt : option string) (style : string)
           (duration : Z)
| Poll (job_id : string)
| Download (result_url output_path : string).

Definition run (self : SunoMIDIUploader) (op : operation) : M value :=
  match op with
  | Upload p title style tags => upload_midi self p title style tags
  | Generate p prompt style duration =>
      generate_from_midi self p prompt style duration
  | Poll job_id => get_generation_status self job_id
  | Download url out => download_result self url out ;;; ret PyNone
  end.

(** The requests of one attempt of an operation, up to its own request,
    when the operation gets that far. *)
Definition attempt (self : SunoMIDIUploader) (op : operation) (w : world)
  : option (list request) :=
  match op with
  | Upload p title style tags =>
      match uploadable p w with
      | Some c => Some [upload_request self p c title style tags]
      | None => None
      end
  | Generate p prompt style duration =>
      match uploadable p w, json (answer w) with
      | Some c, Some (PyDict d) =>
          if (status_code (answer w) =? 200)%Z
          then Some [upload_request self p c None None None;
                     generate_request self (dict_get d "midi_id")
                                      prompt style duration]
          else None
      | _, _ => None
      end
  | Poll job_id => Some [status_request self job_id]
  | Download url _ => Some [download_request url]
  end.

(** The operation gets to send its own request in [w], and the service
    answers it with [r], whose status is not 200. *)
Definition rejected (self : SunoMIDIUploader) (op : operation) (w : world)
  (r : response) : Prop :=
  exists reqs,
    attempt self op w = Some reqs
    /\ r = server w (length (sent w) + length reqs - 1)
    /\ status_code r <> 200%Z.

Definition failure_prefix (op : operation) : string :=
  match op with
  | Upload _ _ _ _ => "Upload failed: "
  | Generate _ _ _ _ => "Generation failed: "
  | Poll _ => "Status check failed: "
  | Download _ _ => "Download failed: "
  end.

Definition reports_body (op : operation) : bool :=
  match op with Download _ _ => false | _ => true end.

(** What an operation raises on a rejected request. *)
Definition remote_error (op : operation) (r : response) : exn :=
  if reports_body op
  then Exception_ (failure_prefix op +:+ pretty (status_code r)
                   +:+ " - " +:+ text r)
  else Exception_ (failure_prefix op +:+ pretty (status_code r)).

(** A poll answer that is neither ["completed"] nor ["failed"]. *)
Definition non_terminal (r : response) : bool :=
  (status_code r =? 200)%Z
  && match json r with
     | Some (PyDict d) =>
         negb (eq_str (dict_get d "status") "completed")
         && negb (eq_str (dict_get d "status") "failed")
     | _ => false
     end.

(** A poll answer with status [s] and payload [d]. *)
Definition reports (r : response) (s : string) (d : list (string * value))
  : Prop :=
  status_code r = 200%Z /\ json r = Some (PyDict d)
  /\ dict_get d "status" = PyStr s.

(** [math.ceil(a / b)] for a positive [b]. *)
Definition ceil_div (a b : Z) : Z := (- ((- a) / b))%Z.

(** An optional argument as the code treats it: a falsy one counts as
    absent. *)
Definition provided {A} `{Truthy A} (o : option A) : option A :=
  if truthy o then o else None.

Definition timeout_error (timeout : Z) : exn :=
  TimeoutError ("Generation did not complete within " +:+ pretty timeout
                +:+ " seconds").

Definition job_failed (err : string) : exn :=
  Exception_ ("Generation failed: " +:+ err).

Fixpoint no_space (s : string) : bool :=
  match s with
  | EmptyString => true
  | String c r => negb (Ascii.eqb c " ") && no_space r
  end.

(** ** A sample client and sample worlds *)

Definition sample_client : SunoMIDIUploader := init "secret" default_base_url.

Definition reply (code : Z) (body : string) (j : option value) (t : N)
  : response :=
  {| status_code := code; text := body; json := j; elapsed := t |}.

(** A scripted service: the listed answers in turn, then [d] for ever. *)
Definition script (l : list response) (d : response) : nat -> response :=
  fun n => nth n l d.

Definition sample_world (srv : nat -> response) : world :=
  {| fs := {[ "song.mid" := File "MThd"; "notes.txt" := File "hello";
              "album.MIDI" := Directory ]};
     now := 1000;
     sent := [];
     server := srv |}.

Definition status_reply (s : string) (extra : list (string * value)) (t : N)
  : response :=
  reply 200 s (Some (PyDict (("status", PyStr s) :: extra))) t.

Definition sample_url : string := "https://cdn.suno.ai/a.mp3".

Definition not_found_world : world :=
  sample_world (script [] (reply 404 "not found" None 0)).
Definition gone_world : world :=
  sample_world (script [] (reply 404 "gone" None 0)).

Definition upload_only_world : world :=
  sample_world (script [reply 200 "{}" (Some (PyDict [])) 1]
                       (reply 200 "job" (Some (PyDict [("job_id", PyStr "j1")])) 1)).

(** The world after one turn of the polling loop that neither returned nor
    raised: the request went out and the client slept. *)
Definition next_turn (self : SunoMIDIUploader) (job_id : string)
  (poll_interval : Z) (w : world) : world :=
  advance poll_interval (exchanged (status_request self job_id) w).

Definition running_world : world :=
  sample_world (fun _ => status_reply "running" [] 0).

Definition completing_world : world :=
  sample_world (script [status_reply "running" [] 1;
                        status_reply "running" [] 2;
                        status_reply "completed"
                          [("audio_url", PyStr sample_url)] 1]
                       (status_reply "completed" [] 0)).

Definition failing_world : world :=
  sample_world (script [status_reply "running" [] 1;
                        status_reply "failed" [("error", PyStr "out of credits")] 1]
                       (status_reply "completed" [] 0)).

Definition odd_status_world : world :=
  sample_world (script [reply 200 "{}" (Some (PyDict [("state", PyStr "done")])) 0;
                        reply 200 "{}" (Some (PyDict [("status", PyStr "Completed")])) 0;
                        reply 200 "{}" (Some (PyDict [("status", PyInt 7)])) 0]
                       (status_reply "completed" [] 0)).

(** ** Vocabulary of the further properties *)

(** The world after [n] turns of the polling loop that neither returned
    nor raised, and the time those turns took: each is one exchange and one
    sleep. *)
Definition turns (self : SunoMIDIUploader) (job_id : string)
  (poll_interval : Z) (n : nat) (w : world) : world :=
  Nat.iter n (next_turn self job_id poll_interval) w.

Fixpoint waited (poll_interval : Z) (w : world) (n : nat) : Z :=
  match n with
  | O => 0%Z
  | S n' =>
      (waited poll_interval w n'
       + Z.of_N (elapsed (server w (length (sent w) + n'))) + poll_interval)%Z
  end.

(** The headers a request of [op] carries when the client was built by
    [init] with the key [key]. *)
Definition expected_headers (key : string) (op : operation) (r : request)
  : list (string * string) :=
  match op, req_payload r with
  | Download _ _, _ => []
  | _, Multipart _ _ => [("Authorization", "Bearer " +:+ key)]
  | _, _ => [("Authorization", "Bearer " +:+ key);
             ("Content-Type", "application/json")]
  end.


Definition slow_world : world :=
  sample_world (script [status_reply "queued" [] 10;
                        status_reply "running" [] 20;
                        status_reply "running" [] 30;
                        reply 502 "bad gateway" None 1]
                       (status_reply "completed" [] 0)).

Definition html_world : world :=
  sample_world (script [] (reply 200 "<html>" None 0)).

Definition list_world : world :=
  sample_world (script [] (reply 200 "[]" (Some (PyList [])) 0)).

Definition folder_world : world :=
  {| fs := {[ "takes.mid" := Directory; "out" := Directory ]};
     now := 0;
     sent := [];
     server := script [] (reply 200 "audio" None 0) |}.

(** ** The slideshow script *)

(** The media library is a collaborator: the model keeps what the script
    hands to it (the clips, the cut, the sound track, the file name and the
    encoder settings) and leaves the console output out.  Every listed
    image is taken to be readable. *)
Record image_clip : Type :=
  { clip_image : string; clip_duration : Z; clip_resized : bool }.

Record encode_job : Type :=
  { job_name : string;
    job_clips : list image_clip;
    job_duration : Z;
    job_audio : option (string * Z);
    job_codec : string;
    job_audio_codec : string;
    job_fps : Z;
    job_threads : Z }.

Inductive video_result : Type :=
| NoImages
| Written (job : encode_job)
| Crashed (e : exn).

(** The settings at the head of the script. *)
Record settings : Type :=
  { IMAGE_DIR : string;
    BGM_PATH : string;
    TARGET_DURATION_SECONDS : Z;
    IMAGE_DURATION_SECONDS : Z }.

Definition default_settings : settings :=
  {| IMAGE_DIR := "C:/Users/YourName/Desktop/sleep_images";
     BGM_PATH := "C:/Users/YourName/Desktop/lullaby_bgm.mp3";
     TARGET_DURATION_SECONDS := 3600;
     IMAGE_DURATION_SECONDS := 15 |}.

(** What the script asks of the machine it runs on: [os.path.join],
    [os.listdir] ([None] when the directory is missing), [os.path.exists]
    and the size of an image. *)
Record host : Type :=
  { os_path_join : string -> string -> string;
    os_listdir : string -> option (list string);
    os_path_exists : string -> bool;
    image_size : string -> Z * Z }.

(** [s.endswith(suffix)] *)
Definition ends_with (s suffix : string) : bool :=
  (String.length suffix <=? String.length s)%nat
  && String.eqb (drop_str (String.length s - String.length suffix) s) suffix.

Definition is_image_name (f : string) : bool :=
  existsb (ends_with (lower f)) [".png"; ".jpg"; ".jpeg"].

Definition make_clip (h : host) (cfg : settings) (img_path : string)
  : image_clip :=
  let '(width, height) := image_size h img_path in
  {| clip_image := img_path;
     clip_duration := IMAGE_DURATION_SECONDS cfg;
     clip_resized := negb (width =? 1920)%Z || negb (height =? 1080)%Z |}.

(** The [for] loop over the images, with its [break]. *)
Fixpoint show_images (h : host) (cfg : settings) (image_files : list string)
  (video_clips : list image_clip) (current_time : Z)
  : list image_clip * Z :=
  match image_files with
  | [] => (video_clips, current_time)
  | img_path :: rest =>
      if (TARGET_DURATION_SECONDS cfg <=? current_time)%Z
      then (video_clips, current_time)
      else show_images h cfg rest
             (video_clips ++ [make_clip h cfg img_path])
             (current_time + IMAGE_DURATION_SECONDS cfg)%Z
  end.

(** The [while] loop around it. *)
Fixpoint loop_images (fuel : nat) (h : host) (cfg : settings)
  (image_files : list string) (video_clips : list image_clip)
  (current_time : Z) : option (list image_clip * Z) :=
  match fuel with
  | O => None
  | S fuel' =>
      if (current_time <? TARGET_DURATION_SECONDS cfg)%Z
      then let '(clips, t) :=
             show_images h cfg image_files video_clips current_time in
           loop_images fuel' h cfg image_files clips t
      else Some (video_clips, current_time)
  end.

Definition select_images (h : host) (cfg : settings) (names : list string)
  : list string :=
  map (os_path_join h (IMAGE_DIR cfg)) (List.filter is_image_name names).

Definition create_looped_video (fuel : nat) (h : host) (cfg : settings)
  : option video_result :=
  match os_listdir h (IMAGE_DIR cfg) with
  | None => Some (Crashed (FileNotFoundError (IMAGE_DIR cfg)))
  | Some names =>
      let image_files := select_images h cfg names in
      if negb (truthy image_files) then Some NoImages
      else
        match loop_images fuel h cfg image_files [] 0 with
        | None => None
        | Some (video_clips, _) =>
            let audio := if os_path_exists h (BGM_PATH cfg)
                         then Some (BGM_PATH cfg, TARGET_DURATION_SECONDS cfg)
                         else None in
            let output_filename :=
              "Lullaby_Loop_"
              +:+ pretty (TARGET_DURATION_SECONDS cfg / 60)%Z
              +:+ "min.mp4" in
            Some (Written {| job_name := output_filename;
                             job_clips := video_clips;
                             job_duration := TARGET_DURATION_SECONDS cfg;
                             job_audio := audio;
                             job_codec := "libx264";
                             job_audio_codec := "aac";
                             job_fps := 24;
                             job_threads := 4 |})
        end
  end.


(** [posixpath.join] of two parts. *)
Definition posix_join (a b : string) : string :=
  if String.prefix "/" b then b
  else if String.eqb a "" || ends_with a "/" then a +:+ b
  else a +:+ "/" +:+ b.

Definition sample_host : host :=
  {| os_path_join := posix_join;
     os_listdir := fun d => if String.eqb d "pics"
                            then Some ["a.png"; "notes.txt"; "b.JPG"; "c.jpeg"]
                            else None;
     os_path_exists := fun p => String.eqb p "lullaby.mp3";
     image_size := fun p => if String.eqb p "pics/a.png"
                            then (1920, 1080)%Z else (800, 600)%Z |}.

Definition sample_settings (target each : Z) : settings :=
  {| IMAGE_DIR := "pics"; BGM_PATH := "lullaby.mp3";
     TARGET_DURATION_SECONDS := target; IMAGE_DURATION_SECONDS := each |}.

Definition empty_host : host :=
  {| os_path_join := posix_join;
     os_listdir := fun _ => Some ["notes.txt"; "png"];
     os_path_exists := fun _ => false;
     image_size := fun _ => (1920, 1080)%Z |}.

(** * Properties *)

Local Open Scope list_scope.

(** ** Decimal numerals and error messages *)

Lemma no_space_pretty_N_go (x : N) (s : string) :
  no_space s = true -> no_space (pretty_N_go x s) = true.
Proof.
  revert s. induction (N.lt_wf_0 x) as [x _ IH]; intros s Hs.
  destruct (decide (x = 0%N)) as [->|Hx].
  - by rewrite pretty_N_go_0.
  - rewrite pretty_N_go_step by lia.
    apply IH; [apply N.div_lt; lia|].
    simpl. rewrite Hs, andb_true_r.
    unfold pretty_N_char. by repeat case_match.
Qed.

Lemma no_space_pretty_N (x : N) : no_space (pretty x) = true.
Proof.
  unfold pretty, pretty_N. case_decide; [done|].
  by apply no_space_pretty_N_go.
Qed.

Lemma no_space_pretty_Z (z : Z) : no_space (pretty z) = true.
Proof.
  destruct z as [|p|p]; [done|apply no_space_pretty_N|].
  unfold pretty, pretty_Z. change ("-" +:+ pretty p) with (String "-" (pretty p)).
  simpl. apply no_space_pretty_N.
Qed.

(** Two texts cut at their first space agree piecewise. *)
Lemma cut_at_space (s1 s2 t1 t2 : string) :
  no_space s1 = true -> no_space s2 = true ->
  s1 +:+ String " " t1 = s2 +:+ String " " t2 -> s1 = s2 /\ t1 = t2.
Proof.
  revert s2. induction s1 as [|a s1 IH]; intros [|b s2] H1 H2 Heq;
    simpl in *.
  - by inversion Heq.
  - inversion Heq; subst. by rewrite Ascii.eqb_refl in H2.
  - inversion Heq; subst. by rewrite Ascii.eqb_refl in H1.
  - apply andb_true_iff in H1 as [_ H1]. apply andb_true_iff in H2 as [_ H2].
    inversion Heq; subst.
    destruct (IH s2 H1 H2) as [-> ->]; done.
Qed.

Lemma status_and_body_inj (prefix : string) (c1 c2 : Z) (b1 b2 : string) :
  prefix +:+ pretty c1 +:+ " - " +:+ b1 = prefix +:+ pretty c2 +:+ " - " +:+ b2 ->
  c1 = c2 /\ b1 = b2.
Proof.
  intros Heq. apply (inj (String.app prefix)) in Heq.
  change (" - " +:+ b1) with (String " " ("- " +:+ b1)) in Heq.
  change (" - " +:+ b2) with (String " " ("- " +:+ b2)) in Heq.
  apply cut_at_space in Heq as [Hc Hb]; try apply no_space_pretty_Z.
  split; [by apply (inj pretty)|].
  by apply (inj (String.app "- ")) in Hb.
Qed.

Lemma status_inj (prefix : string) (c1 c2 : Z) :
  prefix +:+ pretty c1 = prefix +:+ pretty c2 -> c1 = c2.
Proof.
  intros Heq. apply (inj (String.app prefix)) in Heq. by apply (inj pretty).
Qed.

(** ** One exchange with the service *)

Lemma uploadable_inv (p : string) (w : world) (c : string) :
  uploadable p w = Some c ->
  fs w !! p = Some (File c)
  /\ is_in (lower (path_suffix p)) [".mid"; ".midi"] = true.
Proof.
  unfold uploadable. intros H.
  destruct (fs w !! p) as [[c'|]|]; try discriminate.
  destruct (is_in _ _); [|discriminate].
  by inversion H.
Qed.

Lemma upload_midi_sends (self : SunoMIDIUploader) (p : string)
  (title style : option string) (tags : option (list value))
  (w : world) (c : string) :
  uploadable p w = Some c ->
  upload_midi self p title style tags w =
    if (status_code (answer w) =? 200)%Z
    then response_json (answer w)
           (exchanged (upload_request self p c title style tags) w)
    else (Raise (remote_error (Upload p title style tags) (answer w)),
          exchanged (upload_request self p c title style tags) w).
Proof.
  intros [Hfs Hsuf]%uploadable_inv.
  unfold upload_midi, bind, path_exists.
  rewrite bool_decide_true by eauto. cbn [negb].
  rewrite Hsuf. cbn [negb].
  unfold read_file. rewrite Hfs.
  unfold requests_post, http_send. fold (answer w).
  destruct (status_code (answer w) =? 200)%Z; reflexivity.
Qed.

Lemma get_generation_status_sends (self : SunoMIDIUploader) (job_id : string)
  (w : world) :
  get_generation_status self job_id w =
    if (status_code (answer w) =? 200)%Z
    then response_json (answer w) (exchanged (status_request self job_id) w)
    else (Raise (remote_error (Poll job_id) (answer w)),
          exchanged (status_request self job_id) w).
Proof.
  unfold get_generation_status, bind, requests_get, http_send.
  fold (answer w). destruct (status_code (answer w) =? 200)%Z; reflexivity.
Qed.

Lemma download_result_rejected (self : SunoMIDIUploader)
  (url out : string) (w : world) :
  status_code (answer w) <> 200%Z ->
  download_result self url out w =
    (Raise (remote_error (Download url out) (answer w)),
     exchanged (download_request url) w).
Proof.
  intros Hne%Z.eqb_neq.
  unfold download_result, bind, requests_get, http_send.
  fold (answer w). by rewrite Hne.
Qed.

Lemma answer_exchanged (req : request) (w : world) :
  answer (exchanged req w) = server w (S (length (sent w))).
Proof.
  unfold answer, exchanged. simpl. rewrite length_app. simpl.
  f_equal. lia.
Qed.

Lemma generate_from_midi_sends (self : SunoMIDIUploader) (p : string)
  (prompt : option string) (style : string) (duration : Z)
  (w : world) (c : string) (d : list (string * value)) :
  uploadable p w = Some c ->
  status_code (answer w) = 200%Z ->
  json (answer w) = Some (PyDict d) ->
  let w1 := exchanged (upload_request self p c None None None) w in
  let w2 := exchanged (generate_request self (dict_get d "midi_id")
                                        prompt style duration) w1 in
  generate_from_midi self p prompt style duration w =
    if (status_code (answer w1) =? 200)%Z
    then response_json (answer w1) w2
    else (Raise (remote_error (Generate p prompt style duration) (answer w1)),
          w2).
Proof.
  intros Hup Hok Hjson w1 w2. subst w1 w2.
  unfold generate_from_midi, bind.
  rewrite (upload_midi_sends _ _ _ _ _ _ _ Hup), Hok.
  change (200 =? 200)%Z with true. cbv iota.
  unfold response_json at 1. rewrite Hjson.
  unfold ret at 1. unfold py_get, ret at 1.
  unfold requests_post, http_send.
  set (w1 := exchanged _ w). fold (answer w1).
  destruct (status_code (answer w1) =? 200)%Z; reflexivity.
Qed.

(** ** Rejected requests *)

Lemma remote_error_inj (op : operation) (r r' : response) :
  remote_error op r' = remote_error op r ->
  status_code r' = status_code r
  /\ (reports_body op = true -> text r' = text r).
Proof.
  unfold remote_error. destruct (reports_body op); intros [= Heq].
  - apply status_and_body_inj in Heq as [? ?]. auto.
  - apply status_inj in Heq. split; [done|discriminate].
Qed.

Lemma sent_exchanged (req : request) (w : world) :
  sent (exchanged req w) = sent w ++ [req].
Proof. reflexivity. Qed.

Lemma fs_exchanged (req : request) (w : world) :
  fs (exchanged req w) = fs w.
Proof. reflexivity. Qed.

(** C1, as amended: a request answered with a status other than 200 makes
    Upload, Generate and Poll raise an [Exception] whose message holds the
    status code and the raw body, and Download one that holds the status
    code alone; the message determines what it holds; nothing is sent after
    the rejected request (no retry) and the file system is untouched. *)
Theorem remote_error_terminal (self : SunoMIDIUploader) (op : operation)
  (w : world) (r : response) :
  rejected self op w r ->
  (exists reqs w',
      attempt self op w = Some reqs
      /\ run self op w = (Raise (remote_error op r), w')
      /\ sent w' = sent w ++ reqs
      /\ fs w' = fs w)
  /\ (forall r' : response,
        remote_error op r' = remote_error op r ->
        status_code r' = status_code r
        /\ (reports_body op = true -> text r' = text r)).
Proof.
  intros (reqs & Hatt & -> & Hne). split; [|apply remote_error_inj].
  exists reqs. rewrite Hatt.
  destruct op as [p title style tags|p prompt style duration|job|url out];
    simpl in Hatt.
  - destruct (uploadable p w) as [c|] eqn:Hup; [|discriminate].
    injection Hatt as <-. simpl in Hne |- *.
    replace (length (sent w) + 1 - 1)%nat with (length (sent w)) in * by lia.
    fold (answer w) in Hne |- *.
    eexists. rewrite (upload_midi_sends _ _ _ _ _ _ _ Hup).
    apply Z.eqb_neq in Hne. rewrite Hne. done.
  - destruct (uploadable p w) as [c|] eqn:Hup; [|discriminate].
    destruct (json (answer w)) as [[| | | | |d]|] eqn:Hjson; try discriminate.
    destruct (status_code (answer w) =? 200)%Z eqn:Hok; [|discriminate].
    injection Hatt as <-. simpl in Hne |- *.
    replace (length (sent w) + 2 - 1)%nat with (S (length (sent w))) in * by lia.
    apply Z.eqb_eq in Hok.
    rewrite (generate_from_midi_sends _ _ _ _ _ _ _ _ Hup Hok Hjson).
    rewrite answer_exchanged.
    apply Z.eqb_neq in Hne. rewrite Hne.
    eexists. split; [done|]. split; [reflexivity|].
    split; [|done]. simpl. by rewrite <- app_assoc.
  - injection Hatt as <-. simpl in Hne |- *.
    replace (length (sent w) + 1 - 1)%nat with (length (sent w)) in * by lia.
    fold (answer w) in Hne |- *.
    eexists. rewrite get_generation_status_sends.
    apply Z.eqb_neq in Hne. rewrite Hne. done.
  - injection Hatt as <-. simpl in Hne |- *.
    replace (length (sent w) + 1 - 1)%nat with (length (sent w)) in * by lia.
    fold (answer w) in Hne |- *.
    eexists. unfold bind. rewrite (download_result_rejected _ _ _ _ Hne). done.
Qed.

Lemma remote_error_terminal_witness :
  rejected sample_client (Upload "song.mid" None None None)
           not_found_world (reply 404 "not found" None 0)
  /\ exists reqs w',
      attempt sample_client (Upload "song.mid" None None None) not_found_world
      = Some reqs
      /\ run sample_client (Upload "song.mid" None None None) not_found_world
         = (Raise (Exception_ "Upload failed: 404 - not found"), w')
      /\ sent w' = sent not_found_world ++ reqs
      /\ fs w' = fs not_found_world.
Proof.
  assert (H : rejected sample_client (Upload "song.mid" None None None)
                       not_found_world (reply 404 "not found" None 0)).
  { eexists. split; [vm_compute; reflexivity|]. split; [reflexivity|].
    simpl. lia. }
  split; [exact H|].
  exact (proj1 (remote_error_terminal _ _ _ _ H)).
Defined.

(** C1, as stated, fails for Download: two rejections that differ in their
    bodies raise the same error, so the error does not hold the body. *)
Lemma download_error_omits_body :
  rejected sample_client (Download sample_url "out.mp3")
           not_found_world (reply 404 "not found" None 0)
  /\ rejected sample_client (Download sample_url "out.mp3")
              gone_world (reply 404 "gone" None 0)
  /\ fst (run sample_client (Download sample_url "out.mp3") not_found_world)
     = Raise (Exception_ "Download failed: 404")
  /\ fst (run sample_client (Download sample_url "out.mp3") gone_world)
     = Raise (Exception_ "Download failed: 404").
Proof.
  repeat split; try (eexists; split; [reflexivity|]; split; [reflexivity|]; simpl; lia);
    vm_compute; reflexivity.
Qed.

(** ** Upload: local checks and the form *)

(** C6: a path that does not exist makes Upload raise [FileNotFoundError],
    and an existing path whose suffix, lower-cased, is neither [.mid] nor
    [.midi] makes it raise [ValueError]; in both cases the world is left as
    it was, so no request has been sent. *)
Theorem upload_rejects_bad_path (self : SunoMIDIUploader) (p : string)
  (title style : option string) (tags : option (list value)) (w : world) :
  (fs w !! p = None ->
   upload_midi self p title style tags w
   = (Raise (FileNotFoundError ("MIDI file not found: " +:+ p)), w))
  /\ (is_Some (fs w !! p) ->
      is_in (lower (path_suffix p)) [".mid"; ".midi"] = false ->
      upload_midi self p title style tags w
      = (Raise (ValueError "File must be a MIDI file (.mid or .midi)"), w)).
Proof.
  split.
  - intros Hnone. unfold upload_midi, bind, path_exists.
    rewrite bool_decide_false; [done|].
    rewrite Hnone. by intros [? ?].
  - intros Hsome Hsuf. unfold upload_midi, bind, path_exists.
    rewrite bool_decide_true by done. cbn [negb].
    by rewrite Hsuf.
Qed.

Lemma upload_rejects_bad_path_witness :
  (fs not_found_world !! "missing.mid" = None
   /\ upload_midi sample_client "missing.mid" None None None not_found_world
      = (Raise (FileNotFoundError "MIDI file not found: missing.mid"),
         not_found_world))
  /\ (is_Some (fs not_found_world !! "notes.txt")
      /\ is_in (lower (path_suffix "notes.txt")) [".mid"; ".midi"] = false
      /\ upload_midi sample_client "notes.txt" (Some "t") None None
                     not_found_world
         = (Raise (ValueError "File must be a MIDI file (.mid or .midi)"),
            not_found_world)).
Proof.
  assert (H1 : fs not_found_world !! "missing.mid" = None) by reflexivity.
  assert (H2 : is_Some (fs not_found_world !! "notes.txt"))
    by (eexists; reflexivity).
  assert (H3 : is_in (lower (path_suffix "notes.txt")) [".mid"; ".midi"] = false)
    by reflexivity.
  split.
  - split; [exact H1|].
    exact (proj1 (upload_rejects_bad_path sample_client "missing.mid"
                    None None None not_found_world) H1).
  - split; [exact H2|]. split; [exact H3|].
    exact (proj2 (upload_rejects_bad_path sample_client "notes.txt"
                    (Some "t") None None not_found_world) H2 H3).
Defined.

Lemma truthy_provided {A} `{Truthy A} (o : option A) :
  truthy (provided o) = truthy o.
Proof. unfold provided. by destruct (truthy o) eqn:E. Qed.

Lemma upload_form_provided (title style : option string)
  (tags : option (list value)) :
  upload_form title style tags
  = upload_form (provided title) (provided style) (provided tags).
Proof.
  unfold upload_form. rewrite !truthy_provided.
  unfold provided.
  destruct (truthy title), (truthy style), (truthy tags); reflexivity.
Qed.

(** C10: the form holds exactly the keys among [title], [style] and [tags]
    whose arguments are truthy, in that order, and a falsy argument (an
    empty title or style, an empty tag list) gives the same form and the
    same Upload as an absent one. *)
Theorem falsy_fields_omitted (self : SunoMIDIUploader) (p : string)
  (title style : option string) (tags : option (list value)) :
  dict_keys (upload_form title style tags)
  = (if truthy title then ["title"] else [])
    ++ (if truthy style then ["style"] else [])
    ++ (if truthy tags then ["tags"] else [])
  /\ upload_form title style tags
     = upload_form (provided title) (provided style) (provided tags)
  /\ upload_midi self p title style tags
     = upload_midi self p (provided title) (provided style) (provided tags).
Proof.
  split; [|split].
  - unfold upload_form.
    destruct (truthy title), (truthy style), (truthy tags); reflexivity.
  - apply upload_form_provided.
  - unfold upload_midi. by rewrite (upload_form_provided title style tags).
Qed.

(** ** Download *)

(** C9: a Download whose request is answered with a status other than 200
    raises and leaves the file system as it was: the output path is neither
    created nor emptied. *)
Theorem rejected_download_keeps_files (self : SunoMIDIUploader)
  (url out : string) (w : world) :
  status_code (answer w) <> 200%Z ->
  exists (e : exn) (w' : world),
    download_result self url out w = (Raise e, w')
    /\ fs w' = fs w
    /\ sent w' = sent w ++ [download_request url].
Proof.
  intros Hne. rewrite (download_result_rejected _ _ _ _ Hne).
  by eexists _, _.
Qed.

Lemma rejected_download_keeps_files_witness :
  status_code (answer not_found_world) <> 200%Z
  /\ exists (e : exn) (w' : world),
      download_result sample_client sample_url "song.mid" not_found_world
      = (Raise e, w')
      /\ fs w' = fs not_found_world
      /\ sent w' = sent not_found_world ++ [download_request sample_url].
Proof.
  assert (H : status_code (answer not_found_world) <> 200%Z) by (simpl; lia).
  split; [exact H|].
  exact (rejected_download_keeps_files sample_client sample_url "song.mid"
           not_found_world H).
Defined.

(** *** A download that is accepted *)

Lemma append_empty_r (s : string) : s +:+ "" = s.
Proof.
  induction s as [|a s IH]; [done|].
  change (String a (s +:+ "") = String a s). by rewrite IH.
Qed.

Lemma append_assoc (s t u : string) : (s +:+ t) +:+ u = s +:+ (t +:+ u).
Proof.
  induction s as [|a s IH]; [done|].
  change (String a ((s +:+ t) +:+ u) = String a (s +:+ (t +:+ u))).
  by rewrite IH.
Qed.

Lemma substring_drop_str (n : nat) (s : string) :
  substring 0 n s +:+ drop_str n s = s.
Proof.
  revert s. induction n as [|n IH]; intros [|a s]; try done.
  change (String a (substring 0 n s +:+ drop_str n s) = String a s).
  by rewrite IH.
Qed.

Lemma length_drop_str (n : nat) (s : string) :
  String.length (drop_str n s) = (String.length s - n)%nat.
Proof.
  revert s. induction n as [|n IH]; intros [|a s]; simpl; auto with lia.
Qed.

(** The chunks of a body, put end to end, are the body. *)
Lemma chunks_go_whole (n : nat) (fuel : nat) (s : string) :
  (0 < n)%nat -> (String.length s <= fuel)%nat ->
  fold_right String.append "" (chunks_go fuel n s) = s.
Proof.
  intros Hn. revert s. induction fuel as [|fuel IH]; intros s Hlen.
  - destruct s; [done|simpl in Hlen; lia].
  - destruct s as [|a s]; [done|].
    cbn [chunks_go fold_right]. rewrite IH.
    + apply substring_drop_str.
    + rewrite length_drop_str. simpl in *. lia.
Qed.

Lemma for_each_file_write (f : string) (chunks : list string) :
  forall (w : world) (c : string),
    fs w !! f = Some (File c) ->
    exists w' : world,
      for_each chunks (fun chunk => file_write f chunk) w = (Return tt, w')
      /\ fs w' = <[f := File (c +:+ fold_right String.append "" chunks)]> (fs w)
      /\ sent w' = sent w.
Proof.
  induction chunks as [|x chunks IH]; intros w c Hc.
  - exists w. simpl. rewrite append_empty_r, insert_id by done. done.
  - cbn [for_each]. unfold bind, file_write at 1. rewrite Hc.
    destruct (IH (set_fs (<[f := File (c +:+ x)]> (fs w)) w) (c +:+ x))
      as (w' & Hrun & Hfs & Hsent).
    { simpl. by rewrite lookup_insert_eq. }
    exists w'. rewrite Hrun. split; [done|]. split; [|done].
    rewrite Hfs. simpl. by rewrite insert_insert_eq, append_assoc.
Qed.

(** A 200 answer is saved whole: the output path, unless it is a
    directory, then holds the body and nothing else. *)
Lemma download_result_saves (self : SunoMIDIUploader) (url out : string)
  (w : world) :
  status_code (answer w) = 200%Z ->
  fs w !! out <> Some Directory ->
  exists w' : world,
    download_result self url out w = (Return tt, w')
    /\ fs w' = <[out := File (text (answer w))]> (fs w)
    /\ sent w' = sent w ++ [download_request url].
Proof.
  intros Hok Hdir.
  unfold download_result, bind, requests_get, http_send. fold (answer w).
  rewrite Hok. change (200 =? 200)%Z with true. cbv iota.
  fold (download_request url). fold (exchanged (download_request url) w).
  set (w1 := exchanged (download_request url) w).
  assert (Hopen : open_wb out w1
                  = (Return out, set_fs (<[out := File ""]> (fs w1)) w1)).
  { unfold open_wb. change (fs w1) with (fs w).
    by destruct (fs w !! out) as [[c|]|]. }
  cbn [negb]. cbv beta iota. rewrite Hopen.
  destruct (for_each_file_write out (iter_content (answer w) 8192)
              (set_fs (<[out := File ""]> (fs w1)) w1) "")
    as (w' & Hrun & Hfs & Hsent).
  { simpl. by rewrite lookup_insert_eq. }
  exists w'. rewrite Hrun. split; [done|]. rewrite Hfs, Hsent. split; [|done].
  simpl. rewrite insert_insert_eq. unfold iter_content.
  rewrite chunks_go_whole; [done|by apply Nat.ltb_lt; vm_compute|done].
Qed.

(** ** Generate *)

Lemma dict_get_missing (d : list (string * value)) (k : string) :
  ~ In k (dict_keys d) -> dict_get d k = PyNone.
Proof.
  induction d as [|[k' v] d IH]; simpl; [done|].
  intros Hnot. destruct (String.eqb_spec k' k) as [->|Hne].
  - destruct Hnot. by left.
  - apply IH. intros Hin. apply Hnot. by right.
Qed.

Lemma generate_payload_eq (midi_id : value) (prompt : option string)
  (style : string) (duration : Z) :
  generate_payload midi_id prompt style duration
  = [("midi_id", midi_id); ("style", PyStr style); ("duration", PyInt duration)]
    ++ (if truthy prompt then [("prompt", opt_str prompt)] else []).
Proof. unfold generate_payload. by destruct (truthy prompt). Qed.

Lemma snd_response_json (r : response) (w : world) :
  snd (response_json r w) = w.
Proof. unfold response_json. by destruct (json r). Qed.

(** C7: Generate starts with a full Upload of the path alone.  When that
    Upload raises, Generate raises the same error and sends nothing more.
    When the Upload is answered with status 200 and a JSON object, exactly
    one further request follows it: a POST to [{base}/generate] whose JSON
    body holds [midi_id], [style] and [duration], and [prompt] only when a
    non-empty prompt was given; [midi_id] is what the object holds under
    that key, and null when the key is missing. *)
Theorem generate_uploads_then_posts (self : SunoMIDIUploader) (p : string)
  (prompt : option string) (style : string) (duration : Z) (w : world) :
  (forall (e : exn) (w1 : world),
      upload_midi self p None None None w = (Raise e, w1) ->
      generate_from_midi self p prompt style duration w = (Raise e, w1))
  /\ (forall (c : string) (d : list (string * value)),
         uploadable p w = Some c ->
         status_code (answer w) = 200%Z ->
         json (answer w) = Some (PyDict d) ->
         sent (snd (generate_from_midi self p prompt style duration w))
         = sent w
           ++ [upload_request self p c None None None;
               {| req_method := POST;
                  req_url := base_url self +:+ "/generate";
                  req_headers := headers self;
                  req_payload :=
                    JsonBody
                      (PyDict
                         ([("midi_id", dict_get d "midi_id");
                           ("style", PyStr style);
                           ("duration", PyInt duration)]
                          ++ (if truthy prompt
                              then [("prompt", opt_str prompt)] else [])));
                  req_stream := false |}]
         /\ (~ In "midi_id" (dict_keys d) -> dict_get d "midi_id" = PyNone)).
Proof.
  split.
  - intros e w1 Hup. unfold generate_from_midi, bind. by rewrite Hup.
  - intros c d Hup Hok Hjson. split; [|apply dict_get_missing].
    rewrite (generate_from_midi_sends _ _ _ _ _ _ _ _ Hup Hok Hjson).
    rewrite <- generate_payload_eq.
    destruct (status_code _ =? 200)%Z; rewrite ?snd_response_json; simpl;
      by rewrite <- app_assoc.
Qed.

Lemma generate_uploads_then_posts_witness :
  (upload_midi sample_client "song.mid" None None None not_found_world
   = (Raise (Exception_ "Upload failed: 404 - not found"),
      exchanged (upload_request sample_client "song.mid" "MThd" None None None)
                not_found_world)
   /\ generate_from_midi sample_client "song.mid" (Some "calm") "jazz" 60
                         not_found_world
      = (Raise (Exception_ "Upload failed: 404 - not found"),
         exchanged (upload_request sample_client "song.mid" "MThd" None None None)
                   not_found_world))
  /\ (uploadable "song.mid" upload_only_world = Some "MThd"
      /\ status_code (answer upload_only_world) = 200%Z
      /\ json (answer upload_only_world) = Some (PyDict [])
      /\ sent (snd (generate_from_midi sample_client "song.mid" (Some "calm")
                                       "jazz" 60 upload_only_world))
         = [upload_request sample_client "song.mid" "MThd" None None None;
            {| req_method := POST;
               req_url := "https://api.suno.ai/v1/generate";
               req_headers := [("Authorization", "Bearer secret");
                               ("Content-Type", "application/json")];
               req_payload :=
                 JsonBody (PyDict [("midi_id", PyNone);
                                   ("style", PyStr "jazz");
                                   ("duration", PyInt 60);
                                   ("prompt", PyStr "calm")]);
               req_stream := false |}]).
Proof.
  assert (H0 : upload_midi sample_client "song.mid" None None None
                           not_found_world
               = (Raise (Exception_ "Upload failed: 404 - not found"),
                  exchanged (upload_request sample_client "song.mid" "MThd"
                                            None None None)
                            not_found_world)) by reflexivity.
  assert (H1 : uploadable "song.mid" upload_only_world = Some "MThd")
    by reflexivity.
  assert (H2 : status_code (answer upload_only_world) = 200%Z) by reflexivity.
  assert (H3 : json (answer upload_only_world) = Some (PyDict []))
    by reflexivity.
  split.
  - split; [exact H0|].
    exact (proj1 (generate_uploads_then_posts sample_client "song.mid"
                    (Some "calm") "jazz" 60 not_found_world) _ _ H0).
  - split; [exact H1|]. split; [exact H2|]. split; [exact H3|].
    exact (proj1 (proj2 (generate_uploads_then_posts sample_client "song.mid"
                           (Some "calm") "jazz" 60 upload_only_world)
                        _ _ H1 H2 H3)).
Defined.

(** ** Tags on the wire *)

Lemma sent_upload_midi (self : SunoMIDIUploader) (p : string)
  (title style : option string) (tags : option (list value))
  (w : world) (c : string) :
  uploadable p w = Some c ->
  sent (snd (upload_midi self p title style tags w))
  = sent w ++ [upload_request self p c title style tags].
Proof.
  intros Hup. rewrite (upload_midi_sends _ _ _ _ _ _ _ Hup).
  destruct (status_code _ =? 200)%Z; by rewrite ?snd_response_json.
Qed.

(** C8: a non-empty tag list travels in the one request of Upload as a
    single form field named [tags] whose value is the string that
    [json.dumps] gives for the list; the list [["a", "b"]] travels as the
    text [["a", "b"]] with a space after the comma. *)
Theorem tags_sent_as_json_string (repr : value -> string)
  (self : SunoMIDIUploader) (p : string) (title style : option string)
  (l : list value) (w : world) (c : string) :
  l <> [] ->
  uploadable p w = Some c ->
  sent (snd (upload_midi self p title style (Some l) w))
  = sent w ++ [upload_request self p c title style (Some l)]
  /\ req_payload (upload_request self p c title style (Some l))
     = Multipart [("midi_file", {| part_filename := path_name p;
                                   part_content := c;
                                   part_type := "audio/midi" |})]
                 (upload_form title style (Some l))
  /\ dict_get (upload_form title style (Some l)) "tags"
     = PyStr (json_dumps (PyList l))
  /\ List.filter (fun f => String.eqb (fst f) "tags")
                 (form_fields repr (upload_form title style (Some l)))
     = [("tags", json_dumps (PyList l))]
  /\ json_dumps (PyList [PyStr "a"; PyStr "b"])
     = "[" +:+ dquote +:+ "a" +:+ dquote +:+ ", "
       +:+ dquote +:+ "b" +:+ dquote +:+ "]".
Proof.
  intros Hl Hup. split; [by apply sent_upload_midi|].
  split; [reflexivity|].
  assert (Ht : truthy (Some l) = true) by (by destruct l).
  unfold upload_form. rewrite Ht.
  split; [|split; [|reflexivity]].
  - destruct (truthy title), (truthy style); reflexivity.
  - destruct title as [t|], style as [s|]; simpl;
      repeat (match goal with
              | |- context [truthy ?x] => destruct (truthy x)
              end; simpl); reflexivity.
Qed.

Lemma tags_sent_as_json_string_witness :
  [PyStr "a"; PyStr "b"] <> []
  /\ uploadable "song.mid" upload_only_world = Some "MThd"
  /\ List.filter (fun f => String.eqb (fst f) "tags")
       (form_fields (fun _ => "")
          (upload_form (Some "Tune") None (Some [PyStr "a"; PyStr "b"])))
     = [("tags", "[" +:+ dquote +:+ "a" +:+ dquote +:+ ", "
                 +:+ dquote +:+ "b" +:+ dquote +:+ "]")].
Proof.
  assert (H1 : [PyStr "a"; PyStr "b"] <> []) by discriminate.
  assert (H2 : uploadable "song.mid" upload_only_world = Some "MThd")
    by reflexivity.
  split; [exact H1|]. split; [exact H2|].
  exact (proj1 (proj2 (proj2 (proj2
           (tags_sent_as_json_string (fun _ => "") sample_client "song.mid"
              (Some "Tune") None [PyStr "a"; PyStr "b"] upload_only_world
              "MThd" H1 H2))))).
Defined.

(** ** The polling loop *)

(** Runs the test at the top of the loop, whose result is [b]. *)
Ltac test_deadline b :=
  unfold polling_loop; cbn [while];
  unfold bind at 1, time_time at 1, ret at 1;
  match goal with
  | |- context [(?t <? ?d)%Z] =>
      let H := fresh in
      assert (H : (t <? d)%Z = b) by lia; rewrite H; clear H
  end.

Section Polling.

Variable repr : value -> string.
Variable self : SunoMIDIUploader.
Variable job_id : string.

Lemma while_more_fuel {A} (cond : M bool) (body : M (option A))
  (fuel fuel' : nat) (w : world) (r : outcome (option A) * world) :
  while fuel cond body w = Some r -> (fuel <= fuel')%nat ->
  while fuel' cond body w = Some r.
Proof.
  revert fuel' w. induction fuel as [|fuel IH]; intros fuel' w H Hle;
    [discriminate|].
  destruct fuel' as [|fuel']; [lia|]. simpl in *.
  destruct (cond w) as [[[|]|e] w1]; try done.
  destruct (body w1) as [[[a|]|e] w2]; try done.
  apply IH; [done|lia].
Qed.

Lemma poll_once_continues (poll_interval : Z) (w : world) :
  non_terminal (answer w) = true -> (0 <= poll_interval)%Z ->
  poll_once repr self job_id poll_interval w
  = (Return None, next_turn self job_id poll_interval w).
Proof.
  unfold non_terminal. intros [Hok Hst]%andb_true_iff Hpos.
  destruct (json (answer w)) as [[| | | | |d]|] eqn:Hjson; try discriminate.
  apply andb_true_iff in Hst as [Hc%negb_true_iff Hf%negb_true_iff].
  unfold poll_once, bind. rewrite get_generation_status_sends, Hok.
  unfold response_json. rewrite Hjson. unfold ret at 1. unfold py_get, ret at 1.
  rewrite Hc. unfold ret at 1. rewrite Hf.
  unfold time_sleep. assert ((poll_interval <? 0)%Z = false) as -> by lia.
  reflexivity.
Qed.

Lemma poll_once_completed (poll_interval : Z) (w : world)
  (d : list (string * value)) :
  reports (answer w) "completed" d ->
  poll_once repr self job_id poll_interval w
  = (Return (Some (PyDict d)), exchanged (status_request self job_id) w).
Proof.
  intros (Hok & Hjson & Hst).
  unfold poll_once, bind. rewrite get_generation_status_sends, Hok.
  change (200 =? 200)%Z with true. cbv iota.
  unfold response_json. rewrite Hjson. unfold ret at 1. unfold py_get, ret at 1.
  by rewrite Hst.
Qed.

Lemma poll_once_failed (poll_interval : Z) (w : world)
  (d : list (string * value)) :
  reports (answer w) "failed" d ->
  poll_once repr self job_id poll_interval w
  = (Raise (job_failed (py_str repr (dict_get d "error"))),
     exchanged (status_request self job_id) w).
Proof.
  intros (Hok & Hjson & Hst).
  unfold poll_once, bind. rewrite get_generation_status_sends, Hok.
  change (200 =? 200)%Z with true. cbv iota.
  unfold response_json. rewrite Hjson. unfold ret at 1. unfold py_get, ret at 1.
  by rewrite Hst.
Qed.

Lemma reports_non_terminal (r : response) (s : string)
  (d : list (string * value)) :
  reports r s d -> s <> "completed" -> s <> "failed" ->
  non_terminal r = true.
Proof.
  intros (Hok & Hjson & Hst) Hc Hf. unfold non_terminal.
  rewrite Hok, Hjson, Hst. simpl.
  apply String.eqb_neq in Hc, Hf. by rewrite Hc, Hf.
Qed.

Lemma loop_continues (fuel : nat) (start_time timeout poll_interval : Z)
  (w : world) :
  (now w - start_time < timeout)%Z ->
  non_terminal (answer w) = true -> (0 <= poll_interval)%Z ->
  polling_loop repr (S fuel) self job_id start_time timeout poll_interval w
  = polling_loop repr fuel self job_id start_time timeout poll_interval
      (next_turn self job_id poll_interval w).
Proof.
  intros Hlt Hnt Hpos. test_deadline true.
  by rewrite poll_once_continues.
Qed.

Lemma loop_completed (fuel : nat) (start_time timeout poll_interval : Z)
  (w : world) (d : list (string * value)) :
  (now w - start_time < timeout)%Z ->
  reports (answer w) "completed" d ->
  polling_loop repr (S fuel) self job_id start_time timeout poll_interval w
  = Some (Return (Some (PyDict d)),
          exchanged (status_request self job_id) w).
Proof.
  intros Hlt Hrep. test_deadline true.
  by rewrite (poll_once_completed _ _ _ Hrep).
Qed.

Lemma loop_failed (fuel : nat) (start_time timeout poll_interval : Z)
  (w : world) (d : list (string * value)) :
  (now w - start_time < timeout)%Z ->
  reports (answer w) "failed" d ->
  polling_loop repr (S fuel) self job_id start_time timeout poll_interval w
  = Some (Raise (job_failed (py_str repr (dict_get d "error"))),
          exchanged (status_request self job_id) w).
Proof.
  intros Hlt Hrep. test_deadline true.
  by rewrite (poll_once_failed _ _ _ Hrep).
Qed.

Lemma loop_deadline (fuel : nat) (start_time timeout poll_interval : Z)
  (w : world) :
  (timeout <= now w - start_time)%Z ->
  polling_loop repr (S fuel) self job_id start_time timeout poll_interval w
  = Some (Return None, w).
Proof.
  intros Hge. by test_deadline false.
Qed.

End Polling.

Lemma wait_for_completion_loop (repr : value -> string) (fuel : nat)
  (self : SunoMIDIUploader) (job_id : string) (timeout poll_interval : Z)
  (w : world) :
  wait_for_completion repr fuel self job_id timeout poll_interval w
  = match polling_loop repr fuel self job_id (now w) timeout poll_interval w with
    | None => None
    | Some (Return (Some status), w') => Some (Return status, w')
    | Some (Return None, w') => Some (Raise (timeout_error timeout), w')
    | Some (Raise e, w') => Some (Raise e, w')
    end.
Proof.
  unfold wait_for_completion, bindD, lift, time_time.
  destruct (polling_loop _ _ _ _ _ _ _ w) as [[[[st|]|e] w']|]; reflexivity.
Qed.

Lemma answer_next_turn (self : SunoMIDIUploader) (job_id : string)
  (poll_interval : Z) (w : world) :
  answer (next_turn self job_id poll_interval w)
  = server w (S (length (sent w))).
Proof. unfold next_turn. apply (answer_exchanged _ w). Qed.

Lemma now_next_turn (self : SunoMIDIUploader) (job_id : string)
  (poll_interval : Z) (w : world) :
  now (next_turn self job_id poll_interval w)
  = (now w + Z.of_N (elapsed (answer w)) + poll_interval)%Z.
Proof. reflexivity. Qed.

Lemma sent_next_turn (self : SunoMIDIUploader) (job_id : string)
  (poll_interval : Z) (w : world) :
  sent (next_turn self job_id poll_interval w)
  = sent w ++ [status_request self job_id].
Proof. reflexivity. Qed.

Lemma server_next_turn (self : SunoMIDIUploader) (job_id : string)
  (poll_interval : Z) (w : world) :
  server (next_turn self job_id poll_interval w) = server w.
Proof. reflexivity. Qed.

(** C2: when the next three answers report [running], [running] and
    [completed], the poll interval is 0 and the deadline is not reached
    before the third poll, [wait_for_completion] sends exactly three status
    requests and returns the payload of the third answer. *)
Theorem three_polls_to_completion (repr : value -> string)
  (self : SunoMIDIUploader) (job_id : string) (timeout : Z) (w : world)
  (d1 d2 d3 : list (string * value)) (fuel : nat) :
  reports (server w (length (sent w))) "running" d1 ->
  reports (server w (S (length (sent w)))) "running" d2 ->
  reports (server w (S (S (length (sent w))))) "completed" d3 ->
  (0 < timeout)%Z ->
  (Z.of_N (elapsed (server w (length (sent w)))) < timeout)%Z ->
  (Z.of_N (elapsed (server w (length (sent w))))
   + Z.of_N (elapsed (server w (S (length (sent w))))) < timeout)%Z ->
  (3 <= fuel)%nat ->
  exists w' : world,
    wait_for_completion repr fuel self job_id timeout 0 w
    = Some (Return (PyDict d3), w')
    /\ sent w' = sent w ++ replicate 3 (status_request self job_id).
Proof.
  intros H1 H2 H3 Ht0 Ht1 Ht2 Hfuel.
  destruct fuel as [|[|[|fuel]]]; try lia.
  set (w1 := next_turn self job_id 0 w).
  set (w2 := next_turn self job_id 0 w1).
  assert (Ha1 : answer w1 = server w (S (length (sent w))))
    by apply answer_next_turn.
  assert (Ha2 : answer w2 = server w (S (S (length (sent w))))).
  { unfold w2. rewrite answer_next_turn. unfold w1.
    by rewrite server_next_turn, sent_next_turn, length_app, Nat.add_1_r. }
  exists (exchanged (status_request self job_id) w2).
  split; [|by rewrite sent_exchanged; unfold w2, w1;
            rewrite !sent_next_turn, <- !app_assoc].
  rewrite wait_for_completion_loop.
  rewrite loop_continues;
    [|lia|by eapply reports_non_terminal|lia].
  fold w1. rewrite loop_continues; fold w2.
  - rewrite (loop_completed _ _ _ _ _ _ _ _ d3); [done| |by rewrite Ha2].
    unfold w2. rewrite now_next_turn, Ha1. unfold w1.
    rewrite now_next_turn. unfold answer. lia.
  - unfold w1. rewrite now_next_turn. unfold answer. lia.
  - rewrite Ha1. by eapply reports_non_terminal.
  - lia.
Qed.

Lemma three_polls_to_completion_witness :
  reports (server completing_world (length (sent completing_world)))
          "running" [("status", PyStr "running")]
  /\ (0 < default_timeout)%Z
  /\ exists w' : world,
      wait_for_completion (fun _ => "") 3 sample_client "j1" default_timeout 0
                          completing_world
      = Some (Return (PyDict [("status", PyStr "completed");
                              ("audio_url", PyStr sample_url)]), w')
      /\ sent w' = sent completing_world
                   ++ replicate 3 (status_request sample_client "j1").
Proof.
  assert (H1 : reports (server completing_world (length (sent completing_world)))
                       "running" [("status", PyStr "running")])
    by (repeat split; reflexivity).
  assert (H2 : reports (server completing_world
                               (S (length (sent completing_world))))
                       "running" [("status", PyStr "running")])
    by (repeat split; reflexivity).
  assert (H3 : reports (server completing_world
                               (S (S (length (sent completing_world)))))
                       "completed"
                       [("status", PyStr "completed");
                        ("audio_url", PyStr sample_url)])
    by (repeat split; reflexivity).
  assert (Ht0 : (0 < default_timeout)%Z) by reflexivity.
  split; [exact H1|]. split; [exact Ht0|].
  apply (three_polls_to_completion (fun _ => "") sample_client "j1"
           default_timeout completing_world _ _ _ 3 H1 H2 H3 Ht0).
  - simpl; unfold default_timeout; lia.
  - simpl; unfold default_timeout; lia.
  - lia.
Defined.

(** C3: when the next two answers report [running] and [failed] and the
    deadline is not reached before the second poll, [wait_for_completion]
    raises the job-failure [Exception] whose message holds the [error]
    field of the second answer, after exactly two status requests. *)
Theorem failed_job_after_two_polls (repr : value -> string)
  (self : SunoMIDIUploader) (job_id : string) (timeout poll_interval : Z)
  (w : world) (d1 d2 : list (string * value)) (fuel : nat) :
  reports (server w (length (sent w))) "running" d1 ->
  reports (server w (S (length (sent w)))) "failed" d2 ->
  (0 <= poll_interval)%Z ->
  (0 < timeout)%Z ->
  (Z.of_N (elapsed (server w (length (sent w)))) + poll_interval < timeout)%Z ->
  (2 <= fuel)%nat ->
  exists w' : world,
    wait_for_completion repr fuel self job_id timeout poll_interval w
    = Some (Raise (Exception_ ("Generation failed: "
                               +:+ py_str repr (dict_get d2 "error"))), w')
    /\ sent w' = sent w ++ replicate 2 (status_request self job_id).
Proof.
  intros H1 H2 Hpos Ht0 Ht1 Hfuel.
  destruct fuel as [|[|fuel]]; try lia.
  set (w1 := next_turn self job_id poll_interval w).
  assert (Ha1 : answer w1 = server w (S (length (sent w))))
    by apply answer_next_turn.
  exists (exchanged (status_request self job_id) w1).
  split; [|by rewrite sent_exchanged; unfold w1;
            rewrite sent_next_turn, <- app_assoc].
  rewrite wait_for_completion_loop.
  rewrite loop_continues; [|lia|by eapply reports_non_terminal|lia].
  fold w1.
  rewrite (loop_failed _ _ _ _ _ _ _ _ d2); [done| |by rewrite Ha1].
  unfold w1. rewrite now_next_turn. unfold answer. lia.
Qed.

Lemma failed_job_after_two_polls_witness :
  reports (server failing_world (length (sent failing_world)))
          "running" [("status", PyStr "running")]
  /\ (0 <= default_poll_interval)%Z
  /\ exists w' : world,
      wait_for_completion (fun _ => "") 2 sample_client "j1"
                          default_timeout default_poll_interval failing_world
      = Some (Raise (Exception_ "Generation failed: out of credits"), w')
      /\ sent w' = sent failing_world
                   ++ replicate 2 (status_request sample_client "j1").
Proof.
  assert (H1 : reports (server failing_world (length (sent failing_world)))
                       "running" [("status", PyStr "running")])
    by (repeat split; reflexivity).
  assert (H2 : reports (server failing_world (S (length (sent failing_world))))
                       "failed"
                       [("status", PyStr "failed");
                        ("error", PyStr "out of credits")])
    by (repeat split; reflexivity).
  assert (Hp : (0 <= default_poll_interval)%Z) by (unfold default_poll_interval; lia).
  assert (Ht0 : (0 < default_timeout)%Z) by reflexivity.
  split; [exact H1|]. split; [exact Hp|].
  apply (failed_job_after_two_polls (fun _ => "") sample_client "j1"
           default_timeout default_poll_interval failing_world _ _ 2
           H1 H2 Hp Ht0).
  - simpl; unfold default_timeout, default_poll_interval; lia.
  - lia.
Defined.

(** *** The deadline *)

(** With a positive interval the loop leaves through its test: it ends
    once the clock has passed the deadline, having sent [k] status requests
    with [k * poll_interval] below the time that was left plus one
    interval. *)
Lemma loop_times_out (repr : value -> string) (self : SunoMIDIUploader)
  (job_id : string) (start_time timeout poll_interval : Z) :
  (0 < poll_interval)%Z ->
  forall (n : nat) (w : world),
    (forall k : nat, non_terminal (server w k) = true) ->
    (Z.to_nat (timeout - (now w - start_time)) <= n)%nat ->
    exists (w' : world) (k : nat),
      polling_loop repr (S n) self job_id start_time timeout poll_interval w
      = Some (Return None, w')
      /\ sent w' = sent w ++ replicate k (status_request self job_id)
      /\ fs w' = fs w
      /\ (timeout <= now w' - start_time)%Z
      /\ (Z.of_nat k * poll_interval
          < Z.max (timeout - (now w - start_time)) 0 + poll_interval)%Z.
Proof.
  intros Hpos n. induction n as [|n IH]; intros w Hsrv Hn.
  - exists w, 0%nat. rewrite loop_deadline by lia.
    rewrite app_nil_r. repeat split; lia.
  - destruct (Z_lt_le_dec (now w - start_time) timeout) as [Hlt|Hge].
    + set (w1 := next_turn self job_id poll_interval w).
      assert (Hnow : (now w1 = now w + Z.of_N (elapsed (answer w))
                               + poll_interval)%Z) by apply now_next_turn.
      destruct (IH w1) as (w' & k & Hloop & Hsent & Hfs & Hdone & Hk).
      { intros k. apply Hsrv. }
      { lia. }
      exists w', (S k). rewrite loop_continues; [|done|apply Hsrv|lia].
      fold w1. rewrite Hloop. split; [done|].
      split; [by rewrite Hsent; unfold w1; rewrite sent_next_turn, <- app_assoc|].
      split; [by rewrite Hfs|]. split; [done|].
      rewrite Nat2Z.inj_succ, (Z.max_l _ 0) by lia.
      destruct (Z.max_spec (timeout - (now w1 - start_time)) 0)
        as [[Hneg Hm]|[Hnn Hm]]; rewrite Hm in Hk.
      * assert (Z.of_nat k = 0)%Z as -> by nia. lia.
      * lia.
    + exists w, 0%nat. rewrite loop_deadline by lia.
      rewrite app_nil_r. repeat split; lia.
Qed.

Lemma ceil_div_bound (k timeout poll_interval : Z) :
  (0 < poll_interval)%Z ->
  (k * poll_interval < timeout + poll_interval)%Z ->
  (k <= ceil_div timeout poll_interval)%Z.
Proof.
  intros Hpos Hk. unfold ceil_div.
  pose proof (Z.div_mod (- timeout) poll_interval ltac:(lia)) as Hdm.
  pose proof (Z.mod_pos_bound (- timeout) poll_interval Hpos) as Hm.
  nia.
Qed.

(** C4: with a positive poll interval, a deadline that is not negative and
    a service whose every answer is non-terminal, [wait_for_completion]
    returns control: it raises [TimeoutError] once the clock, read at the
    top of a turn, is [timeout] or more past its reading at the call, and
    it has sent at most [ceil(timeout / poll_interval) + 1] status
    requests. *)
Theorem all_running_times_out (repr : value -> string)
  (self : SunoMIDIUploader) (job_id : string) (timeout poll_interval : Z)
  (w : world) :
  (0 < poll_interval)%Z ->
  (0 <= timeout)%Z ->
  (forall k : nat, non_terminal (server w k) = true) ->
  exists (fuel0 : nat) (w' : world) (polls : nat),
    (forall fuel : nat,
        (fuel0 <= fuel)%nat ->
        wait_for_completion repr fuel self job_id timeout poll_interval w
        = Some (Raise (TimeoutError ("Generation did not complete within "
                                     +:+ pretty timeout +:+ " seconds")), w'))
    /\ sent w' = sent w ++ replicate polls (status_request self job_id)
    /\ (Z.of_nat polls <= ceil_div timeout poll_interval + 1)%Z
    /\ (timeout <= now w' - now w)%Z.
Proof.
  intros Hpos Htime Hsrv.
  destruct (loop_times_out repr self job_id (now w) timeout poll_interval Hpos
              (Z.to_nat timeout) w Hsrv)
    as (w' & k & Hloop & Hsent & _ & Hdone & Hk); [lia|].
  exists (S (Z.to_nat timeout)), w', k.
  split; [|split; [done|split; [|done]]].
  - intros fuel Hfuel. rewrite wait_for_completion_loop.
    unfold polling_loop in *.
    by rewrite (while_more_fuel _ _ _ fuel _ _ Hloop Hfuel).
  - assert (Z.of_nat k <= ceil_div timeout poll_interval)%Z; [|lia].
    apply ceil_div_bound; [done|]. lia.
Qed.

Lemma all_running_times_out_witness :
  (0 < 1)%Z /\ (0 <= 1)%Z
  /\ (forall k : nat, non_terminal (server running_world k) = true)
  /\ exists (fuel0 : nat) (w' : world) (polls : nat),
      (forall fuel : nat,
          (fuel0 <= fuel)%nat ->
          wait_for_completion (fun _ => "") fuel sample_client "j1" 1 1
                              running_world
          = Some (Raise (TimeoutError
                           "Generation did not complete within 1 seconds"), w'))
      /\ sent w' = sent running_world
                   ++ replicate polls (status_request sample_client "j1")
      /\ (Z.of_nat polls <= ceil_div 1 1 + 1)%Z
      /\ (1 <= now w' - now running_world)%Z.
Proof.
  assert (H1 : (0 < 1)%Z) by lia.
  assert (H2 : (0 <= 1)%Z) by lia.
  assert (H3 : forall k : nat, non_terminal (server running_world k) = true)
    by (intros k; reflexivity).
  split; [exact H1|]. split; [exact H2|]. split; [exact H3|].
  exact (all_running_times_out (fun _ => "") sample_client "j1" 1 1
           running_world H1 H2 H3).
Defined.

(** *** Statuses other than completed and failed *)

Lemma eq_str_false (v : value) (s : string) :
  v <> PyStr s -> eq_str v s = false.
Proof.
  intros Hne. destruct v as [| | |t| |]; try reflexivity.
  simpl. apply String.eqb_neq. congruence.
Qed.

(** C5: a 200 answer whose JSON object holds under [status] anything but
    the string [completed] or the string [failed] (nothing at all, another
    string, a value that is not a string) ends the turn without a result:
    the client sleeps for the poll interval and the loop goes back to its
    test in the world so reached. *)
Theorem other_status_keeps_polling (repr : value -> string)
  (self : SunoMIDIUploader) (job_id : string)
  (start_time timeout poll_interval : Z) (w : world)
  (d : list (string * value)) (fuel : nat) :
  status_code (answer w) = 200%Z ->
  json (answer w) = Some (PyDict d) ->
  dict_get d "status" <> PyStr "completed" ->
  dict_get d "status" <> PyStr "failed" ->
  (now w - start_time < timeout)%Z ->
  (0 <= poll_interval)%Z ->
  poll_once repr self job_id poll_interval w
  = (Return None,
     advance poll_interval (exchanged (status_request self job_id) w))
  /\ polling_loop repr (S fuel) self job_id start_time timeout poll_interval w
     = polling_loop repr fuel self job_id start_time timeout poll_interval
         (advance poll_interval (exchanged (status_request self job_id) w)).
Proof.
  intros Hok Hjson Hc%eq_str_false Hf%eq_str_false Hlt Hpos.
  assert (Hnt : non_terminal (answer w) = true).
  { unfold non_terminal. rewrite Hok, Hjson, Hc, Hf. reflexivity. }
  split.
  - by apply poll_once_continues.
  - by apply loop_continues.
Qed.

Lemma other_status_keeps_polling_witness :
  status_code (answer odd_status_world) = 200%Z
  /\ json (answer odd_status_world) = Some (PyDict [("state", PyStr "done")])
  /\ dict_get [("state", PyStr "done")] "status" <> PyStr "completed"
  /\ dict_get [("state", PyStr "done")] "status" <> PyStr "failed"
  /\ (now odd_status_world - 1000 < 300)%Z
  /\ (0 <= 5)%Z
  /\ polling_loop (fun _ => "") 4 sample_client "j1" 1000 300 5 odd_status_world
     = polling_loop (fun _ => "") 3 sample_client "j1" 1000 300 5
         (advance 5 (exchanged (status_request sample_client "j1")
                               odd_status_world)).
Proof.
  assert (H1 : status_code (answer odd_status_world) = 200%Z) by reflexivity.
  assert (H2 : json (answer odd_status_world)
               = Some (PyDict [("state", PyStr "done")])) by reflexivity.
  assert (H3 : dict_get [("state", PyStr "done")] "status" <> PyStr "completed")
    by discriminate.
  assert (H4 : dict_get [("state", PyStr "done")] "status" <> PyStr "failed")
    by discriminate.
  assert (H5 : (now odd_status_world - 1000 < 300)%Z) by (simpl; lia).
  assert (H6 : (0 <= 5)%Z) by lia.
  repeat (split; [assumption|]).
  exact (proj2 (other_status_keeps_polling (fun _ => "") sample_client "j1"
                  1000 300 5 odd_status_world _ 3 H1 H2 H3 H4 H5 H6)).
Defined.

(** * Further properties of the client *)

(** ** Upload and Generate on answers with status 200 *)

(** X1: once the file is accepted, a 200 answer makes Upload return the
    decoded JSON body as it is, or raise [JSONDecodeError] when the body is
    not JSON; either way exactly one request has gone out, a multipart POST
    to [{base}/uploads/midi] that holds the bytes read from the path under
    [midi_file], named after the last component of the path, with the
    bearer token as its only header. *)
Theorem upload_accepted (key base p : string) (title style : option string)
  (tags : option (list value)) (w : world) (c : string) :
  uploadable p w = Some c ->
  status_code (answer w) = 200%Z ->
  exists w' : world,
    upload_midi (init key base) p title style tags w
    = (match json (answer w) with
       | Some v => Return v
       | None => Raise JSONDecodeError
       end, w')
    /\ fs w' = fs w
    /\ sent w'
       = sent w
         ++ [{| req_method := POST;
                req_url := base +:+ "/uploads/midi";
                req_headers := [("Authorization", "Bearer " +:+ key)];
                req_payload :=
                  Multipart [("midi_file", {| part_filename := path_name p;
                                              part_content := c;
                                              part_type := "audio/midi" |})]
                            (upload_form title style tags);
                req_stream := false |}].
Proof.
  intros Hup Hok. eexists.
  rewrite (upload_midi_sends _ _ _ _ _ _ _ Hup), Hok.
  change (200 =? 200)%Z with true. cbv iota. unfold response_json.
  split; [by destruct (json (answer w))|]. done.
Qed.

Lemma upload_accepted_witness :
  uploadable "song.mid" html_world = Some "MThd"
  /\ status_code (answer html_world) = 200%Z
  /\ exists w' : world,
      upload_midi (init "secret" default_base_url) "song.mid" (Some "Tune")
                  None None html_world
      = (Raise JSONDecodeError, w')
      /\ fs w' = fs html_world
      /\ sent w'
         = [{| req_method := POST;
               req_url := "https://api.suno.ai/v1/uploads/midi";
               req_headers := [("Authorization", "Bearer secret")];
               req_payload :=
                 Multipart [("midi_file", {| part_filename := "song.mid";
                                             part_content := "MThd";
                                             part_type := "audio/midi" |})]
                           [("title", PyStr "Tune")];
               req_stream := false |}].
Proof.
  assert (H1 : uploadable "song.mid" html_world = Some "MThd") by reflexivity.
  assert (H2 : status_code (answer html_world) = 200%Z) by reflexivity.
  split; [exact H1|]. split; [exact H2|].
  exact (upload_accepted "secret" default_base_url "song.mid" (Some "Tune")
           None None html_world "MThd" H1 H2).
Defined.

(** X2: a directory whose name has a MIDI suffix passes both checks of
    Upload; reading it then raises [IsADirectoryError], and no request is
    sent. *)
Theorem upload_of_directory (self : SunoMIDIUploader) (p : string)
  (title style : option string) (tags : option (list value)) (w : world) :
  fs w !! p = Some Directory ->
  is_in (lower (path_suffix p)) [".mid"; ".midi"] = true ->
  upload_midi self p title style tags w = (Raise (IsADirectoryError p), w).
Proof.
  intros Hdir Hsuf. unfold upload_midi, bind, path_exists.
  rewrite bool_decide_true by eauto. cbn [negb].
  rewrite Hsuf. cbn [negb]. unfold read_file. by rewrite Hdir.
Qed.

Lemma upload_of_directory_witness :
  fs folder_world !! "takes.mid" = Some Directory
  /\ is_in (lower (path_suffix "takes.mid")) [".mid"; ".midi"] = true
  /\ upload_midi sample_client "takes.mid" None None None folder_world
     = (Raise (IsADirectoryError "takes.mid"), folder_world).
Proof.
  assert (H1 : fs folder_world !! "takes.mid" = Some Directory) by reflexivity.
  assert (H2 : is_in (lower (path_suffix "takes.mid")) [".mid"; ".midi"] = true)
    by reflexivity.
  split; [exact H1|]. split; [exact H2|].
  exact (upload_of_directory sample_client "takes.mid" None None None
           folder_world H1 H2).
Defined.

(** X3: when the Upload inside Generate is answered with status 200 and a
    JSON value that is not an object, Generate raises [AttributeError] and
    the POST to [{base}/generate] is never sent. *)
Theorem generate_needs_object (self : SunoMIDIUploader) (p : string)
  (prompt : option string) (style : string) (duration : Z)
  (w : world) (c : string) (v : value) :
  uploadable p w = Some c ->
  status_code (answer w) = 200%Z ->
  json (answer w) = Some v ->
  (forall d, v <> PyDict d) ->
  generate_from_midi self p prompt style duration w
  = (Raise (AttributeError "get"),
     exchanged (upload_request self p c None None None) w).
Proof.
  intros Hup Hok Hjson Hv. unfold generate_from_midi, bind.
  rewrite (upload_midi_sends _ _ _ _ _ _ _ Hup), Hok.
  change (200 =? 200)%Z with true. cbv iota.
  unfold response_json. rewrite Hjson. unfold ret at 1.
  destruct v as [| | | | |d]; try reflexivity.
  by destruct (Hv d).
Qed.

Lemma generate_needs_object_witness :
  uploadable "song.mid" list_world = Some "MThd"
  /\ status_code (answer list_world) = 200%Z
  /\ json (answer list_world) = Some (PyList [])
  /\ (forall d, PyList [] <> PyDict d)
  /\ generate_from_midi sample_client "song.mid" None default_style
                        default_duration list_world
     = (Raise (AttributeError "get"),
        exchanged (upload_request sample_client "song.mid" "MThd"
                                  None None None) list_world).
Proof.
  assert (H1 : uploadable "song.mid" list_world = Some "MThd") by reflexivity.
  assert (H2 : status_code (answer list_world) = 200%Z) by reflexivity.
  assert (H3 : json (answer list_world) = Some (PyList [])) by reflexivity.
  assert (H4 : forall d, PyList [] <> PyDict d) by discriminate.
  repeat (split; [assumption|]).
  exact (generate_needs_object sample_client "song.mid" None default_style
           default_duration list_world "MThd" (PyList []) H1 H2 H3 H4).
Defined.

(** ** What the four operations send and touch *)

Lemma upload_midi_world (self : SunoMIDIUploader) (p : string)
  (title style : option string) (tags : option (list value)) (w : world) :
  snd (upload_midi self p title style tags w) = w
  \/ exists c : string,
      uploadable p w = Some c
      /\ snd (upload_midi self p title style tags w)
         = exchanged (upload_request self p c title style tags) w.
Proof.
  destruct (uploadable p w) as [c|] eqn:Hup.
  - right. exists c. split; [done|].
    rewrite (upload_midi_sends _ _ _ _ _ _ _ Hup).
    destruct (status_code _ =? 200)%Z; by rewrite ?snd_response_json.
  - left. unfold uploadable in Hup. unfold upload_midi, bind, path_exists.
    destruct (fs w !! p) as [[c|]|] eqn:Hfs.
    + rewrite bool_decide_true by eauto. cbn [negb].
      destruct (is_in _ _); [discriminate|done].
    + rewrite bool_decide_true by eauto. cbn [negb].
      destruct (is_in _ _); [|done]. cbn [negb].
      unfold read_file. by rewrite Hfs.
    + rewrite bool_decide_false; [done|]. by intros [? ?].
Qed.

Lemma generate_from_midi_world (self : SunoMIDIUploader) (p : string)
  (prompt : option string) (style : string) (duration : Z) (w : world) :
  let w1 := snd (upload_midi self p None None None w) in
  let w' := snd (generate_from_midi self p prompt style duration w) in
  w' = w1
  \/ exists midi_id : value,
      w' = exchanged (generate_request self midi_id prompt style duration) w1.
Proof.
  cbv zeta. unfold generate_from_midi, bind.
  destruct (upload_midi self p None None None w) as [[v|e] w1]; [|by left].
  cbn [snd]. destruct v as [| | | | |d]; try by left.
  right. exists (dict_get d "midi_id"). unfold py_get, ret at 1.
  unfold requests_post, http_send.
  destruct (negb _); [done|]. by rewrite snd_response_json.
Qed.

Lemma download_result_directory (self : SunoMIDIUploader) (url out : string)
  (w : world) :
  status_code (answer w) = 200%Z ->
  fs w !! out = Some Directory ->
  download_result self url out w
  = (Raise (IsADirectoryError out), exchanged (download_request url) w).
Proof.
  intros Hok Hdir.
  unfold download_result, bind, requests_get, http_send. fold (answer w).
  rewrite Hok. change (200 =? 200)%Z with true. cbn [negb]. cbv beta iota.
  unfold open_wb. cbn [fs advance log]. by rewrite Hdir.
Qed.

(** X6: with an output path that is a directory, Download still sends its
    request; when the answer is 200 it then raises [IsADirectoryError] and
    writes nothing. *)
Theorem download_into_directory (self : SunoMIDIUploader) (url out : string)
  (w : world) :
  status_code (answer w) = 200%Z ->
  fs w !! out = Some Directory ->
  download_result self url out w
  = (Raise (IsADirectoryError out), exchanged (download_request url) w).
Proof. apply download_result_directory. Qed.

Lemma download_into_directory_witness :
  status_code (answer folder_world) = 200%Z
  /\ fs folder_world !! "out" = Some Directory
  /\ download_result sample_client sample_url "out" folder_world
     = (Raise (IsADirectoryError "out"),
        exchanged (download_request sample_url) folder_world).
Proof.
  assert (H1 : status_code (answer folder_world) = 200%Z) by reflexivity.
  assert (H2 : fs folder_world !! "out" = Some Directory) by reflexivity.
  split; [exact H1|]. split; [exact H2|].
  exact (download_into_directory sample_client sample_url "out" folder_world
           H1 H2).
Defined.

Lemma download_result_world (self : SunoMIDIUploader) (url out : string)
  (w : world) :
  let w' := snd (download_result self url out w) in
  sent w' = sent w ++ [download_request url]
  /\ forall p : string, p <> out -> fs w' !! p = fs w !! p.
Proof.
  cbv zeta.
  destruct (decide (status_code (answer w) = 200%Z)) as [Hok|Hne].
  - assert (Hcases : fs w !! out = Some Directory
                     \/ fs w !! out <> Some Directory).
    { destruct (fs w !! out) as [[c|]|]; auto. }
    destruct Hcases as [Hdir|Hdir].
    + by rewrite (download_result_directory _ _ _ _ Hok Hdir).
    + destruct (download_result_saves self url out w Hok Hdir)
        as (w' & -> & Hfs & Hsent).
      cbn [snd]. split; [done|]. intros p Hp.
      by rewrite Hfs, lookup_insert_ne.
  - by rewrite (download_result_rejected _ _ _ _ Hne).
Qed.

(** X4: whatever the outcome, a client built by [init] puts the bearer
    token on every request of Upload, Generate and Poll, with the JSON
    content type on all but the multipart one, and sends the request of
    Download without any header, so the key never goes to the result
    URL. *)
Theorem requests_carry_expected_headers (key base : string) (op : operation)
  (w : world) :
  exists new : list request,
    sent (snd (run (init key base) op w)) = sent w ++ new
    /\ Forall (fun r => req_headers r = expected_headers key op r) new.
Proof.
  set (self := init key base).
  destruct op as [p title style tags|p prompt style duration|job|url out];
    cbn [run].
  - destruct (upload_midi_world self p title style tags w)
      as [->|(c & _ & ->)].
    + exists []. by rewrite app_nil_r.
    + eexists [_]. split; [reflexivity|]. by repeat constructor.
  - pose proof (generate_from_midi_world self p prompt style duration w) as Hg.
    cbv zeta in Hg.
    destruct (upload_midi_world self p None None None w)
      as [Hu|(c & _ & Hu)]; rewrite Hu in Hg;
      destruct Hg as [->|(midi_id & ->)].
    + exists []. by rewrite app_nil_r.
    + eexists [_]. split; [reflexivity|]. by repeat constructor.
    + eexists [_]. split; [reflexivity|]. by repeat constructor.
    + eexists [_; _]. split; [by cbn; rewrite <- app_assoc|].
      by repeat constructor.
  - rewrite get_generation_status_sends.
    eexists [_]. split.
    + destruct (status_code _ =? 200)%Z; by rewrite ?snd_response_json.
    + by repeat constructor.
  - exists [download_request url]. split; [|by repeat constructor].
    unfold bind.
    pose proof (download_result_world self url out w) as [Hs _].
    cbv zeta in Hs.
    by destruct (download_result self url out w) as [[[]|e] w'].
Qed.

(** X5: Upload, Generate and Poll leave the file system as it was, and
    Download changes at most the entry of its output path. *)
Theorem files_touched (self : SunoMIDIUploader) (op : operation) (w : world) :
  match op with
  | Download _ out =>
      forall p : string,
        p <> out -> fs (snd (run self op w)) !! p = fs w !! p
  | _ => fs (snd (run self op w)) = fs w
  end.
Proof.
  destruct op as [p title style tags|p prompt style duration|job|url out];
    cbn [run].
  - by destruct (upload_midi_world self p title style tags w)
      as [->|(c & _ & ->)].
  - pose proof (generate_from_midi_world self p prompt style duration w) as Hg.
    cbv zeta in Hg.
    destruct (upload_midi_world self p None None None w)
      as [Hu|(c & _ & Hu)]; rewrite Hu in Hg;
      by destruct Hg as [->|(midi_id & ->)].
  - rewrite get_generation_status_sends.
    destruct (status_code _ =? 200)%Z; by rewrite ?snd_response_json.
  - intros p Hp. unfold bind.
    pose proof (download_result_world self url out w) as [_ Hf].
    cbv zeta in Hf. specialize (Hf p Hp).
    by destruct (download_result self url out w) as [[[]|e] w'].
Qed.

(** ** The polling loop over any number of turns *)

Section Waiting.

Variable repr : value -> string.
Variable self : SunoMIDIUploader.
Variable job_id : string.
Variable poll_interval : Z.

Lemma turns_facts (n : nat) (w : world) :
  sent (turns self job_id poll_interval n w)
  = sent w ++ replicate n (status_request self job_id)
  /\ server (turns self job_id poll_interval n w) = server w
  /\ fs (turns self job_id poll_interval n w) = fs w
  /\ now (turns self job_id poll_interval n w)
     = (now w + waited poll_interval w n)%Z.
Proof.
  induction n as [|n (Hsent & Hsrv & Hfs & Hnow)].
  - simpl. rewrite app_nil_r. repeat split; lia.
  - change (turns self job_id poll_interval (S n) w)
      with (next_turn self job_id poll_interval
              (turns self job_id poll_interval n w)).
    split; [|split; [|split]].
    + by rewrite sent_next_turn, Hsent, replicate_S_end, app_assoc.
    + by rewrite server_next_turn.
    + exact Hfs.
    + rewrite now_next_turn, Hnow. unfold answer.
      rewrite Hsent, Hsrv, length_app, length_replicate. simpl. lia.
Qed.

Lemma answer_turns (n : nat) (w : world) :
  answer (turns self job_id poll_interval n w)
  = server w (length (sent w) + n).
Proof.
  unfold answer. destruct (turns_facts n w) as (-> & -> & _).
  by rewrite length_app, length_replicate.
Qed.

Lemma waited_mono (n m : nat) (w : world) :
  (0 <= poll_interval)%Z -> (n <= m)%nat ->
  (waited poll_interval w n <= waited poll_interval w m)%Z.
Proof.
  intros Hpos Hle. induction Hle as [|m _ IH]; [lia|]. simpl. lia.
Qed.

(** Turns that start before the deadline and get non-terminal answers are
    passed over one by one. *)
Lemma loop_skips (start_time timeout : Z) (n : nat) :
  forall (fuel : nat) (w : world),
    (0 <= poll_interval)%Z ->
    (forall j : nat,
        (j < n)%nat -> non_terminal (server w (length (sent w) + j)) = true) ->
    (forall j : nat,
        (j < n)%nat ->
        (now w + waited poll_interval w j - start_time < timeout)%Z) ->
    polling_loop repr (n + fuel) self job_id start_time timeout poll_interval w
    = polling_loop repr fuel self job_id start_time timeout poll_interval
        (turns self job_id poll_interval n w).
Proof.
  induction n as [|n IH]; intros fuel w Hpos Hnt Hlt; [done|].
  replace (S n + fuel)%nat with (n + S fuel)%nat by lia.
  rewrite IH by auto with lia.
  rewrite loop_continues; [done| | |done].
  - destruct (turns_facts n w) as (_ & _ & _ & ->). apply Hlt. lia.
  - rewrite answer_turns. apply Hnt. lia.
Qed.

Lemma loop_rejected (fuel : nat) (start_time timeout : Z) (w : world) :
  (now w - start_time < timeout)%Z ->
  status_code (answer w) <> 200%Z ->
  polling_loop repr (S fuel) self job_id start_time timeout poll_interval w
  = Some (Raise (remote_error (Poll job_id) (answer w)),
          exchanged (status_request self job_id) w).
Proof.
  intros Hlt Hne%Z.eqb_neq. test_deadline true.
  unfold poll_once, bind. by rewrite get_generation_status_sends, Hne.
Qed.

Lemma eq_str_true (v : value) (s : string) :
  eq_str v s = true -> v = PyStr s.
Proof.
  destruct v as [| | |t| |]; try discriminate.
  simpl. by intros ->%String.eqb_eq.
Qed.

(** The three ways one turn can end. *)
Lemma poll_once_outcome (w w1 : world) (out : outcome (option value)) :
  poll_once repr self job_id poll_interval w = (out, w1) ->
  match out with
  | Return (Some v) =>
      w1 = exchanged (status_request self job_id) w
      /\ exists d, v = PyDict d /\ dict_get d "status" = PyStr "completed"
  | Return None =>
      w1 = next_turn self job_id poll_interval w /\ (0 <= poll_interval)%Z
  | Raise e =>
      w1 = exchanged (status_request self job_id) w
      /\ forall m : string, e <> TimeoutError m
  end.
Proof.
  unfold poll_once, bind. rewrite get_generation_status_sends.
  destruct (status_code (answer w) =? 200)%Z.
  - unfold response_json. destruct (json (answer w)) as [v|].
    + unfold ret at 1.
      destruct v as [| | | | |d];
        try (intros [= <- <-]; split; [done|discriminate]).
      unfold py_get, ret at 1.
      destruct (eq_str (dict_get d "status") "completed") eqn:Hc.
      { intros [= <- <-]. split; [done|]. exists d.
        split; [done|]. by apply eq_str_true. }
      unfold ret at 1.
      destruct (eq_str (dict_get d "status") "failed") eqn:Hf.
      { intros [= <- <-]. split; [done|discriminate]. }
      unfold time_sleep.
      destruct (poll_interval <? 0)%Z eqn:Hneg.
      { intros [= <- <-]. split; [done|discriminate]. }
      intros [= <- <-]. split; [done|lia].
    + intros [= <- <-]. split; [done|discriminate].
  - intros [= <- <-]. split; [done|discriminate].
Qed.

Lemma polling_loop_sound (start_time timeout : Z) (fuel : nat) :
  forall (w w' : world) (out : outcome (option value)),
    polling_loop repr fuel self job_id start_time timeout poll_interval w
    = Some (out, w') ->
    (exists k : nat,
        sent w' = sent w ++ replicate k (status_request self job_id))
    /\ fs w' = fs w
    /\ match out with
       | Return (Some v) =>
           exists d, v = PyDict d /\ dict_get d "status" = PyStr "completed"
       | Return None => (timeout <= now w' - start_time)%Z
       | Raise e => forall m : string, e <> TimeoutError m
       end.
Proof.
  induction fuel as [|fuel IH]; intros w w' out; [discriminate|].
  unfold polling_loop in *. cbn [while].
  unfold bind at 1, time_time at 1, ret at 1.
  destruct (now w - start_time <? timeout)%Z eqn:Hlt.
  - destruct (poll_once repr self job_id poll_interval w)
      as [[[v|]|e] w1] eqn:Hpoll;
      apply poll_once_outcome in Hpoll.
    + destruct Hpoll as (-> & Hv). intros [= <- <-].
      split; [by exists 1%nat|]. done.
    + destruct Hpoll as (-> & _). intros Hrest.
      apply IH in Hrest as ((k & Hk) & Hfs & Hout).
      split; [|done]. exists (S k). rewrite Hk, sent_next_turn.
      by rewrite <- app_assoc.
    + destruct Hpoll as (-> & He). intros [= <- <-].
      split; [by exists 1%nat|]. done.
  - intros [= <- <-]. split; [exists 0%nat; by rewrite app_nil_r|].
    split; [done|lia].
Qed.

End Waiting.

(** X7: when the next [n] answers are non-terminal, the one after them
    reports [completed], the poll interval is not negative and the [n]
    turns take less than [timeout], [wait_for_completion] returns the
    payload of that answer after exactly [n + 1] status requests; the time
    its last exchange takes does not count against the deadline. *)
Theorem completed_after_waiting (repr : value -> string)
  (self : SunoMIDIUploader) (job_id : string) (timeout poll_interval : Z)
  (w : world) (n : nat) (d : list (string * value)) (fuel : nat) :
  (0 <= poll_interval)%Z ->
  (forall j : nat,
      (j < n)%nat -> non_terminal (server w (length (sent w) + j)) = true) ->
  reports (server w (length (sent w) + n)) "completed" d ->
  (waited poll_interval w n < timeout)%Z ->
  (n < fuel)%nat ->
  exists w' : world,
    wait_for_completion repr fuel self job_id timeout poll_interval w
    = Some (Return (PyDict d), w')
    /\ sent w' = sent w ++ replicate (S n) (status_request self job_id)
    /\ now w'
       = (now w + waited poll_interval w n
          + Z.of_N (elapsed (server w (length (sent w) + n))))%Z.
Proof.
  intros Hpos Hnt Hrep Hlt Hfuel.
  set (wn := turns self job_id poll_interval n w).
  destruct (turns_facts self job_id poll_interval n w)
    as (Hsent & Hsrv & _ & Hnow).
  exists (exchanged (status_request self job_id) wn).
  rewrite wait_for_completion_loop.
  replace fuel with (n + S (fuel - S n))%nat by lia.
  rewrite loop_skips; [|done|done|].
  - fold wn.
    rewrite (loop_completed _ _ _ _ _ _ _ _ d).
    + split; [done|]. rewrite sent_exchanged. unfold wn.
      rewrite Hsent, replicate_S_end, app_assoc. split; [done|].
      cbn [now exchanged advance log]. rewrite Hnow.
      by rewrite (answer_turns self job_id poll_interval n w).
    + unfold wn. rewrite Hnow. lia.
    + unfold wn. by rewrite answer_turns.
  - intros j Hj.
    pose proof (waited_mono poll_interval j n w Hpos ltac:(lia)). lia.
Qed.

Lemma completed_after_waiting_witness :
  (0 <= 5)%Z
  /\ reports (server completing_world (length (sent completing_world) + 2))
             "completed"
             [("status", PyStr "completed"); ("audio_url", PyStr sample_url)]
  /\ (waited 5 completing_world 2 < 300)%Z
  /\ exists w' : world,
      wait_for_completion (fun _ => "") 3 sample_client "j1" 300 5
                          completing_world
      = Some (Return (PyDict [("status", PyStr "completed");
                              ("audio_url", PyStr sample_url)]), w')
      /\ sent w' = sent completing_world
                   ++ replicate 3 (status_request sample_client "j1")
      /\ now w'
         = (now completing_world + waited 5 completing_world 2
            + Z.of_N (elapsed (server completing_world
                                 (length (sent completing_world) + 2))))%Z.
Proof.
  assert (H1 : (0 <= 5)%Z) by lia.
  assert (H2 : forall j : nat,
             (j < 2)%nat ->
             non_terminal (server completing_world
                             (length (sent completing_world) + j)) = true).
  { intros [|[|j]] Hj; [reflexivity|reflexivity|lia]. }
  assert (H3 : reports (server completing_world
                          (length (sent completing_world) + 2))
                       "completed"
                       [("status", PyStr "completed");
                        ("audio_url", PyStr sample_url)])
    by (repeat split; reflexivity).
  assert (H4 : (waited 5 completing_world 2 < 300)%Z) by (simpl; lia).
  assert (H5 : (2 < 3)%nat) by lia.
  split; [exact H1|]. split; [exact H3|]. split; [exact H4|].
  exact (completed_after_waiting (fun _ => "") sample_client "j1" 300 5
           completing_world 2 _ 3 H1 H2 H3 H4 H5).
Defined.

(** X8: a poll answered with a status other than 200 ends the wait at
    once: after [n] non-terminal answers inside the deadline,
    [wait_for_completion] raises the status-check error of the next answer
    and has sent [n + 1] status requests, not one more. *)
Theorem rejected_poll_ends_wait (repr : value -> string)
  (self : SunoMIDIUploader) (job_id : string) (timeout poll_interval : Z)
  (w : world) (n : nat) (fuel : nat) :
  (0 <= poll_interval)%Z ->
  (forall j : nat,
      (j < n)%nat -> non_terminal (server w (length (sent w) + j)) = true) ->
  status_code (server w (length (sent w) + n)) <> 200%Z ->
  (waited poll_interval w n < timeout)%Z ->
  (n < fuel)%nat ->
  exists w' : world,
    wait_for_completion repr fuel self job_id timeout poll_interval w
    = Some (Raise (Exception_
                     ("Status check failed: "
                      +:+ pretty (status_code (server w (length (sent w) + n)))
                      +:+ " - " +:+ text (server w (length (sent w) + n)))),
            w')
    /\ sent w' = sent w ++ replicate (S n) (status_request self job_id).
Proof.
  intros Hpos Hnt Hne Hlt Hfuel.
  set (wn := turns self job_id poll_interval n w).
  destruct (turns_facts self job_id poll_interval n w)
    as (Hsent & Hsrv & _ & Hnow).
  exists (exchanged (status_request self job_id) wn).
  rewrite wait_for_completion_loop.
  replace fuel with (n + S (fuel - S n))%nat by lia.
  rewrite loop_skips; [|done|done|].
  - fold wn. rewrite loop_rejected.
    + unfold wn at 1. rewrite answer_turns. split; [done|].
      rewrite sent_exchanged. unfold wn.
      by rewrite Hsent, replicate_S_end, app_assoc.
    + unfold wn. rewrite Hnow. lia.
    + unfold wn. by rewrite answer_turns.
  - intros j Hj.
    pose proof (waited_mono poll_interval j n w Hpos ltac:(lia)). lia.
Qed.

Lemma rejected_poll_ends_wait_witness :
  (0 <= 5)%Z
  /\ status_code (server slow_world (length (sent slow_world) + 3)) <> 200%Z
  /\ (waited 5 slow_world 3 < 300)%Z
  /\ exists w' : world,
      wait_for_completion (fun _ => "") 4 sample_client "j1" 300 5 slow_world
      = Some (Raise (Exception_ "Status check failed: 502 - bad gateway"), w')
      /\ sent w' = sent slow_world
                   ++ replicate 4 (status_request sample_client "j1").
Proof.
  assert (H1 : (0 <= 5)%Z) by lia.
  assert (H2 : forall j : nat,
             (j < 3)%nat ->
             non_terminal (server slow_world (length (sent slow_world) + j))
             = true).
  { intros [|[|[|j]]] Hj; [reflexivity|reflexivity|reflexivity|lia]. }
  assert (H3 : status_code (server slow_world (length (sent slow_world) + 3))
               <> 200%Z) by (simpl; lia).
  assert (H4 : (waited 5 slow_world 3 < 300)%Z) by (simpl; lia).
  assert (H5 : (3 < 4)%nat) by lia.
  split; [exact H1|]. split; [exact H3|]. split; [exact H4|].
  exact (rejected_poll_ends_wait (fun _ => "") sample_client "j1" 300 5
           slow_world 3 4 H1 H2 H3 H4 H5).
Defined.

(** X9: with a timeout of zero or less [wait_for_completion] raises
    [TimeoutError] without sending a single status request. *)
Theorem past_deadline_sends_nothing (repr : value -> string)
  (self : SunoMIDIUploader) (job_id : string) (timeout poll_interval : Z)
  (w : world) (fuel : nat) :
  (timeout <= 0)%Z ->
  (1 <= fuel)%nat ->
  wait_for_completion repr fuel self job_id timeout poll_interval w
  = Some (Raise (TimeoutError ("Generation did not complete within "
                               +:+ pretty timeout +:+ " seconds")), w).
Proof.
  intros Hle Hfuel. destruct fuel as [|fuel]; [lia|].
  rewrite wait_for_completion_loop. by rewrite loop_deadline by lia.
Qed.

Lemma past_deadline_sends_nothing_witness :
  (0 <= 0)%Z /\ (1 <= 1)%nat
  /\ wait_for_completion (fun _ => "") 1 sample_client "j1" 0 5
                         completing_world
     = Some (Raise (TimeoutError "Generation did not complete within 0 seconds"),
             completing_world).
Proof.
  assert (H1 : (0 <= 0)%Z) by lia.
  assert (H2 : (1 <= 1)%nat) by lia.
  split; [exact H1|]. split; [exact H2|].
  exact (past_deadline_sends_nothing (fun _ => "") sample_client "j1" 0 5
           completing_world 1 H1 H2).
Defined.

(** X10: with a negative poll interval and a positive timeout, a first
    answer that is non-terminal makes [wait_for_completion] raise the
    [ValueError] of [time.sleep] after that one status request. *)
Theorem negative_interval_raises (repr : value -> string)
  (self : SunoMIDIUploader) (job_id : string) (timeout poll_interval : Z)
  (w : world) (fuel : nat) :
  (poll_interval < 0)%Z ->
  (0 < timeout)%Z ->
  non_terminal (answer w) = true ->
  (1 <= fuel)%nat ->
  wait_for_completion repr fuel self job_id timeout poll_interval w
  = Some (Raise (ValueError "sleep length must be non-negative"),
          exchanged (status_request self job_id) w).
Proof.
  intros Hneg Htime Hnt Hfuel. destruct fuel as [|fuel]; [lia|].
  rewrite wait_for_completion_loop.
  unfold polling_loop. cbn [while].
  unfold bind at 1, time_time at 1, ret at 1.
  assert ((now w - now w <? timeout)%Z = true) as -> by lia.
  unfold non_terminal in Hnt. apply andb_true_iff in Hnt as [Hok Hst].
  destruct (json (answer w)) as [[| | | | |d]|] eqn:Hjson; try discriminate.
  apply andb_true_iff in Hst as [Hc%negb_true_iff Hf%negb_true_iff].
  unfold poll_once, bind. rewrite get_generation_status_sends, Hok.
  unfold response_json. rewrite Hjson. unfold ret at 1. unfold py_get, ret at 1.
  rewrite Hc. unfold ret at 1. rewrite Hf.
  unfold time_sleep. by assert ((poll_interval <? 0)%Z = true) as -> by lia.
Qed.

Lemma negative_interval_raises_witness :
  (-1 < 0)%Z /\ (0 < 300)%Z
  /\ non_terminal (answer running_world) = true
  /\ wait_for_completion (fun _ => "") 1 sample_client "j1" 300 (-1)
                         running_world
     = Some (Raise (ValueError "sleep length must be non-negative"),
             exchanged (status_request sample_client "j1") running_world).
Proof.
  assert (H1 : (-1 < 0)%Z) by lia.
  assert (H2 : (0 < 300)%Z) by lia.
  assert (H3 : non_terminal (answer running_world) = true) by reflexivity.
  assert (H4 : (1 <= 1)%nat) by lia.
  split; [exact H1|]. split; [exact H2|]. split; [exact H3|].
  exact (negative_interval_raises (fun _ => "") sample_client "j1" 300 (-1)
           running_world 1 H1 H2 H3 H4).
Defined.

(** X11: whatever the service answers, whenever [wait_for_completion]
    comes back it has sent status requests for its job and nothing else and
    has left the file system alone; a value it returns is an object whose
    [status] is [completed]; and it raises [TimeoutError] only when the
    clock is [timeout] or more past its reading at the call. *)
Theorem wait_is_sound (repr : value -> string) (self : SunoMIDIUploader)
  (job_id : string) (timeout poll_interval : Z) (fuel : nat)
  (w w' : world) (out : outcome value) :
  wait_for_completion repr fuel self job_id timeout poll_interval w
  = Some (out, w') ->
  (exists k : nat,
      sent w' = sent w ++ replicate k (status_request self job_id))
  /\ fs w' = fs w
  /\ match out with
     | Return v =>
         exists d, v = PyDict d /\ dict_get d "status" = PyStr "completed"
     | Raise (TimeoutError _) => (timeout <= now w' - now w)%Z
     | Raise _ => True
     end.
Proof.
  rewrite wait_for_completion_loop.
  destruct (polling_loop repr fuel self job_id (now w) timeout poll_interval w)
    as [[[[v|]|e] w1]|] eqn:Hloop; try discriminate;
    apply polling_loop_sound in Hloop as (Hk & Hfs & Hout);
    intros [= <- <-]; (split; [done|]); (split; [done|]).
  - done.
  - done.
  - destruct e; try done. by destruct (Hout msg).
Qed.

Lemma wait_is_sound_witness :
  exists w' : world,
    wait_for_completion (fun _ => "") 3 sample_client "j1" 300 0
                        completing_world
    = Some (Return (PyDict [("status", PyStr "completed");
                            ("audio_url", PyStr sample_url)]), w')
    /\ (exists k : nat,
           sent w' = sent completing_world
                     ++ replicate k (status_request sample_client "j1"))
    /\ fs w' = fs completing_world.
Proof.
  eexists. split; [reflexivity|].
  pose proof (wait_is_sound (fun _ => "") sample_client "j1" 300 0 3
                completing_world _ _ eq_refl) as (Hk & Hfs & _).
  split; [exact Hk|exact Hfs].
Defined.

(** ** Download, and the whole job *)





(** * The slideshow script *)

Section Slideshow.

Variable h : host.
Variable cfg : settings.

Let T : Z := TARGET_DURATION_SECONDS cfg.
Let D : Z := IMAGE_DURATION_SECONDS cfg.












Lemma show_images_no_progress (image_files : list string) :
  (D <= 0)%Z ->
  forall (video_clips : list image_clip) (t : Z),
    (snd (show_images h cfg image_files video_clips t) <= t)%Z.
Proof.
  intros HD. induction image_files as [|f rest IH]; intros clips t;
    cbn [show_images]; [simpl; lia|].
  destruct (_ <=? _)%Z; [simpl; lia|].
  fold D. etrans; [apply IH|lia].
Qed.

Lemma loop_images_spins (image_files : list string) :
  (D <= 0)%Z ->
  forall (fuel : nat) (video_clips : list image_clip) (t : Z),
    (t < T)%Z -> loop_images fuel h cfg image_files video_clips t = None.
Proof.
  intros HD. induction fuel as [|fuel IH]; intros clips t Ht; [done|].
  cbn [loop_images]. fold T.
  assert ((t <? T)%Z = true) as -> by lia.
  pose proof (show_images_no_progress image_files HD clips t) as Hs.
  destruct (show_images h cfg image_files clips t) as [clips1 t1].
  apply IH. simpl in Hs. lia.
Qed.

Lemma loop_images_empty (fuel : nat) (video_clips : list image_clip) (t : Z) :
  (t < T)%Z -> loop_images fuel h cfg [] video_clips t = None.
Proof.
  revert video_clips. induction fuel as [|fuel IH]; intros clips Ht; [done|].
  cbn [loop_images show_images]. fold T.
  assert ((t <? T)%Z = true) as -> by lia. by apply IH.
Qed.

End Slideshow.

Lemma filter_none (names : list string) :
  (forall name : string, In name names -> is_image_name name = false) ->
  List.filter is_image_name names = [].
Proof.
  induction names as [|x names IH]; intros Hall; [done|].
  simpl. rewrite (Hall x) by (by left). apply IH.
  intros name Hin. apply Hall. by right.
Qed.




(** X15: a folder without a single image name makes the script return
    before it builds anything, whatever the other settings; and the loop
    it so avoids would never end, since over no images the clock of the
    loop stands still. *)
Theorem slideshow_without_images (h : host) (cfg : settings)
  (names : list string) :
  os_listdir h (IMAGE_DIR cfg) = Some names ->
  (forall name : string, In name names -> is_image_name name = false) ->
  (forall fuel : nat, create_looped_video fuel h cfg = Some NoImages)
  /\ (forall (fuel : nat) (video_clips : list image_clip) (t : Z),
         (t < TARGET_DURATION_SECONDS cfg)%Z ->
         loop_images fuel h cfg (select_images h cfg names) video_clips t
         = None).
Proof.
  intros Hlist Hall.
  assert (Hsel : select_images h cfg names = []).
  { unfold select_images. by rewrite filter_none. }
  split.
  - intros fuel. unfold create_looped_video. by rewrite Hlist, Hsel.
  - intros fuel clips t Ht. rewrite Hsel. by apply loop_images_empty.
Qed.

Lemma slideshow_without_images_witness :
  os_listdir empty_host (IMAGE_DIR default_settings)
  = Some ["notes.txt"; "png"]
  /\ (forall name : string,
         In name ["notes.txt"; "png"] -> is_image_name name = false)
  /\ create_looped_video 0 empty_host default_settings = Some NoImages.
Proof.
  assert (H1 : os_listdir empty_host (IMAGE_DIR default_settings)
               = Some ["notes.txt"; "png"]) by reflexivity.
  assert (H2 : forall name : string,
             In name ["notes.txt"; "png"] -> is_image_name name = false).
  { intros name [<-|[<-|[]]]; reflexivity. }
  split; [exact H1|]. split; [exact H2|].
  exact (proj1 (slideshow_without_images empty_host default_settings _ H1 H2)
               0%nat).
Defined.

(** X16: with a time per image of zero or less, a positive target and at
    least one image, the script never gets to the encoder: its loop adds
    clips without the clock of the loop ever reaching the target. *)
Theorem slideshow_never_ends (h : host) (cfg : settings) (names : list string)
  (fuel : nat) :
  os_listdir h (IMAGE_DIR cfg) = Some names ->
  select_images h cfg names <> [] ->
  (IMAGE_DURATION_SECONDS cfg <= 0)%Z ->
  (0 < TARGET_DURATION_SECONDS cfg)%Z ->
  create_looped_video fuel h cfg = None.
Proof.
  intros Hlist Hne HD HT. unfold create_looped_video. rewrite Hlist. cbv zeta.
  destruct (select_images h cfg names) as [|f files] eqn:Hsel; [done|].
  cbn [truthy truthy_list negb].
  by rewrite loop_images_spins.
Qed.

Lemma slideshow_never_ends_witness :
  os_listdir sample_host (IMAGE_DIR (sample_settings 100 0))
  = Some ["a.png"; "notes.txt"; "b.JPG"; "c.jpeg"]
  /\ (IMAGE_DURATION_SECONDS (sample_settings 100 0) <= 0)%Z
  /\ (0 < TARGET_DURATION_SECONDS (sample_settings 100 0))%Z
  /\ create_looped_video 50 sample_host (sample_settings 100 0) = None.
Proof.
  assert (H1 : os_listdir sample_host (IMAGE_DIR (sample_settings 100 0))
               = Some ["a.png"; "notes.txt"; "b.JPG"; "c.jpeg"])
    by reflexivity.
  assert (H2 : select_images sample_host (sample_settings 100 0)
                             ["a.png"; "notes.txt"; "b.JPG"; "c.jpeg"] <> [])
    by discriminate.
  assert (H3 : (IMAGE_DURATION_SECONDS (sample_settings 100 0) <= 0)%Z)
    by (simpl; lia).
  assert (H4 : (0 < TARGET_DURATION_SECONDS (sample_settings 100 0))%Z)
    by reflexivity.
  split; [exact H1|]. split; [exact H3|]. split; [exact H4|].
  exact (slideshow_never_ends sample_host (sample_settings 100 0) _ 50
           H1 H2 H3 H4).
Defined.

(** * A payload that is not an object *)

(** X17: a 200 answer to a poll whose body is not JSON, or whose JSON is
    not an object, ends [wait_for_completion] with [JSONDecodeError] or
    [AttributeError] after that one status request; only an object with an
    unexpected [status] keeps the loop going. *)
Theorem malformed_payload_ends_wait (repr : value -> string)
  (self : SunoMIDIUploader) (job_id : string) (timeout poll_interval : Z)
  (w : world) (fuel : nat) :
  (0 < timeout)%Z ->
  status_code (answer w) = 200%Z ->
  (1 <= fuel)%nat ->
  (json (answer w) = None ->
   wait_for_completion repr fuel self job_id timeout poll_interval w
   = Some (Raise JSONDecodeError, exchanged (status_request self job_id) w))
  /\ (forall v : value,
         json (answer w) = Some v ->
         (forall d, v <> PyDict d) ->
         wait_for_completion repr fuel self job_id timeout poll_interval w
         = Some (Raise (AttributeError "get"),
                 exchanged (status_request self job_id) w)).
Proof.
  intros Htime Hok Hfuel. destruct fuel as [|fuel]; [lia|].
  assert (Hnone : json (answer w) = None ->
                  poll_once repr self job_id poll_interval w
                  = (Raise JSONDecodeError,
                     exchanged (status_request self job_id) w)).
  { intros Hjson. unfold poll_once, bind.
    rewrite get_generation_status_sends, Hok.
    change (200 =? 200)%Z with true. cbv iota.
    unfold response_json. by rewrite Hjson. }
  assert (Hother : forall v : value,
             json (answer w) = Some v -> (forall d, v <> PyDict d) ->
             poll_once repr self job_id poll_interval w
             = (Raise (AttributeError "get"),
                exchanged (status_request self job_id) w)).
  { intros v Hjson Hv. unfold poll_once, bind.
    rewrite get_generation_status_sends, Hok.
    change (200 =? 200)%Z with true. cbv iota.
    unfold response_json. rewrite Hjson. unfold ret at 1.
    destruct v as [| | | | |d]; try reflexivity. by destruct (Hv d). }
  rewrite wait_for_completion_loop.
  split.
  - intros Hjson. test_deadline true. by rewrite (Hnone Hjson).
  - intros v Hjson Hv. test_deadline true. by rewrite (Hother v Hjson Hv).
Qed.

Lemma malformed_payload_ends_wait_witness :
  (0 < 300)%Z
  /\ status_code (answer html_world) = 200%Z
  /\ json (answer html_world) = None
  /\ wait_for_completion (fun _ => "") 1 sample_client "j1" 300 5 html_world
     = Some (Raise JSONDecodeError,
             exchanged (status_request sample_client "j1") html_world)
  /\ json (answer list_world) = Some (PyList [])
  /\ wait_for_completion (fun _ => "") 1 sample_client "j1" 300 5 list_world
     = Some (Raise (AttributeError "get"),
             exchanged (status_request sample_client "j1") list_world).
Proof.
  assert (H1 : (0 < 300)%Z) by lia.
  assert (H2 : status_code (answer html_world) = 200%Z) by reflexivity.
  assert (H3 : json (answer html_world) = None) by reflexivity.
  assert (H4 : (1 <= 1)%nat) by lia.
  assert (H5 : status_code (answer list_world) = 200%Z) by reflexivity.
  assert (H6 : json (answer list_world) = Some (PyList [])) by reflexivity.
  assert (H7 : forall d, PyList [] <> PyDict d) by discriminate.
  split; [exact H1|]. split; [exact H2|]. split; [exact H3|].
  split; [|split; [exact H6|]].
  - exact (proj1 (malformed_payload_ends_wait (fun _ => "") sample_client "j1"
                    300 5 html_world 1 H1 H2 H4) H3).
  - exact (proj2 (malformed_payload_ends_wait (fun _ => "") sample_client "j1"
                    300 5 list_world 1 H1 H5 H4) _ H6 H7).
Defined.
